(** * Behavioural telemetry collector and its ingestion/query API

    A shallow embedding of the browser collector ([botDetect.js]), of the
    Mongoose schema of the persisted record and of the request handlers of
    the behaviour controller, followed by the properties established about
    them.

    Conventions of the embedding.
    - JavaScript numbers that the program manipulates are integers
      (millisecond timestamps, pixel coordinates, lengths, page numbers);
      they are embedded as [Z], counts of elements as [nat].
    - A JavaScript object whose field names matter (an event pushed on a
      queue, a sub-document) is an association list from field names to
      JSON values, in the order in which the literal lists the fields.
    - Arrays are lists, the tail of the list being the most recent push.
    - [Date.now()], the DOM event objects, the page location and the
      behaviour of the network primitives are inputs of the handlers.
    - The document store is a list of documents; what Mongoose does with
      the declared schema (strict paths, required paths, defaults) is
      embedded from the schema; a failure of the store, and the order in
      which it returns the documents of a find that requests no sort, are
      inputs of the handlers. *)

From stdpp Require Import base list strings gmap pretty sorting.
From Stdlib Require Import ZArith Lia QArith Qround Ascii.

Local Open Scope string_scope.
Local Open Scope list_scope.
Local Open Scope Z_scope.

#[local] Set Warnings "-register-all".

(** ** JavaScript values *)

Module Js.

Inductive JsVal : Type :=
| JNull
| JBool (b : bool)
| JNum (n : Z)
| JStr (s : string)
| JObj (fields : list (string * JsVal)).

Definition JsObj : Type := list (string * JsVal).

(** [o.k], [None] standing for [undefined]. *)
Fixpoint get (k : string) (o : JsObj) : option JsVal :=
  match o with
  | [] => None
  | (k', v) :: o' => if String.eqb k k' then Some v else get k o'
  end.

Definition keys (o : JsObj) : list string := map fst o.

(** The numeric field [k] of an object (0 when absent or not a number). *)
Definition num_field (k : string) (o : JsObj) : Z :=
  match get k o with
  | Some (JNum n) => n
  | _ => 0
  end.

(** [a.slice(-n)]: the last [n] elements, the whole array when it is
    shorter. *)
Definition slice_last {A : Type} (n : nat) (a : list A) : list A :=
  drop (length a - n)%nat a.

(** [s || d] on strings: the empty string is falsy. *)
Definition str_or (s d : string) : string :=
  if String.eqb s "" then d else s.

(** [a || b] on possibly undefined strings. *)
Definition opt_str_or (a b : option string) : option string :=
  match a with
  | Some s => if String.eqb s "" then b else Some s
  | None => b
  end.

(** [s || d] on numbers, [None] standing for [NaN]: [NaN] and 0 are
    falsy. *)
Definition num_or (n : option Z) (d : Z) : Z :=
  match n with
  | Some 0 | None => d
  | Some v => v
  end.

(** [parseInt(s)] without a radix: leading white space is skipped, then
    an optional sign, an optional [0x] prefix selecting radix 16, and the
    longest run of digits; [NaN] when there is no digit. [undefined]
    gives [NaN]. Only ASCII white space is recognised. *)
Definition is_space (c : ascii) : bool :=
  let n := nat_of_ascii c in
  ((n =? 32) || ((9 <=? n) && (n <=? 13)))%nat.

Fixpoint skip_spaces (s : string) : string :=
  match s with
  | String c s' => if is_space c then skip_spaces s' else s
  | EmptyString => s
  end.

Definition digit_value (radix : Z) (c : ascii) : option Z :=
  let n := Z.of_nat (nat_of_ascii c) in
  let v :=
    if (48 <=? n) && (n <=? 57) then Some (n - 48)
    else if (97 <=? n) && (n <=? 122) then Some (n - 87)
    else if (65 <=? n) && (n <=? 90) then Some (n - 55)
    else None in
  match v with
  | Some d => if d <? radix then Some d else None
  | None => None
  end.

Fixpoint digits (radix : Z) (acc : option Z) (s : string) : option Z :=
  match s with
  | String c s' =>
      match digit_value radix c with
      | Some d => digits radix (Some (radix * default 0 acc + d)) s'
      | None => acc
      end
  | EmptyString => acc
  end.

Definition parseInt (x : option string) : option Z :=
  match x with
  | None => None
  | Some s =>
      let s1 := skip_spaces s in
      let '(negative, s2) :=
        match s1 with
        | String "-"%char r => (true, r)
        | String "+"%char r => (false, r)
        | _ => (false, s1)
        end in
      let '(radix, s3) :=
        match s2 with
        | String "0"%char (String "x"%char r) => (16, r)
        | String "0"%char (String "X"%char r) => (16, r)
        | _ => (10, s2)
        end in
      match digits radix None s3 with
      | Some n => Some (if negative then - n else n)
      | None => None
      end
  end.

(** [Math.ceil(a / b)] for integers [a] and [b <> 0], the quotient being
    taken exactly. *)
Definition Math_ceil_div (a b : Z) : Z :=
  Qceiling (inject_Z a / inject_Z b)%Q.

(** Truthiness of a value, and [v || d] for a possibly undefined [v]. *)
Definition truthy (v : JsVal) : bool :=
  match v with
  | JNull => false
  | JBool b => b
  | JNum n => negb (n =? 0)
  | JStr s => negb (String.eqb s "")
  | JObj _ => true
  end.

Definition val_or (v : option JsVal) (d : JsVal) : JsVal :=
  match v with
  | Some x => if truthy x then x else d
  | None => d
  end.

(** A call of a host function either returns or throws. *)
Inductive Call (A : Type) : Type :=
| Returns (a : A)
| Throws.
Arguments Returns {A} a.
Arguments Throws {A}.

End Js.

Import Js.

(** ** The browser collector (botDetect.js) *)

Module Client.

(** *** CONFIG *)

Definition API_ENDPOINT : string :=
  "https://bot-detector-backend.vercel.app/api/collect-behavior".
Definition BATCH_INTERVAL : Z := 10000.
Definition MAX_EVENTS : nat := 1000.
Definition SESSION_DURATION : Z := 30 * 60 * 1000.

(** *** Session management *)

(** ['sess_' + Date.now() + '_' + Math.random().toString(36).substr(2, 9)];
    the random suffix is supplied by the environment. *)
Definition generateSessionId (now : Z) (rnd : string) : string :=
  "sess_" +:+ pretty now +:+ "_" +:+ rnd.

(** Returns the session id and the new content of the storage slot. *)
Definition getSessionId (stored : option string) (now : Z) (rnd : string)
  : string * option string :=
  match stored with
  | Some sid =>
      if String.eqb sid ""
      then (generateSessionId now rnd, Some (generateSessionId now rnd))
      else (sid, stored)
  | None => (generateSessionId now rnd, Some (generateSessionId now rnd))
  end.

(** *** Data storage *)

Record BehaviorData : Type := mkBehaviorData {
  session_id : string;
  session_start : Z;
  mouse_events : list JsObj;
  click_events : list JsObj;
  scroll_events : list JsObj;
  key_events : list JsObj;
  fingerprint : JsObj;
  page_views : list JsObj
}.

(** *** What the handlers read from the host *)

Record PointerMove : Type := mkPointerMove {
  pm_clientX : Z; pm_clientY : Z;
  pm_pageX : Z; pm_pageY : Z;
  pm_movementX : Z; pm_movementY : Z
}.

Record Element : Type := mkElement {
  tagName : string;
  el_id : string;
  className : string;
  textContent : option string
}.

Record PointerClick : Type := mkPointerClick {
  pc_clientX : Z; pc_clientY : Z;
  button : Z;
  target : Element
}.

(** A DOM keyboard event: [key] and [code] name the key pressed, and so
    does the legacy numeric [keyCode]. *)
Record KeyboardEvent : Type := mkKeyboardEvent {
  key : string;
  code : string;
  keyCode : Z;
  location : Z;
  ctrlKey : bool;
  shiftKey : bool;
  altKey : bool;
  metaKey : bool
}.

Record Viewport : Type := mkViewport {
  scrollX : Z; scrollY : Z;
  innerWidth : Z; innerHeight : Z;
  scrollHeight : Z; scrollWidth : Z
}.

Record Page : Type := mkPage {
  pathname : string;
  href : string;
  title : string;
  referrer : string
}.

(** The wire payload built by [sendData]. *)
Record Payload : Type := mkPayload {
  p_session_id : string;
  p_session_start : Z;
  p_mouse_events : list JsObj;
  p_click_events : list JsObj;
  p_scroll_events : list JsObj;
  p_key_events : list JsObj;
  p_fingerprint : JsObj;
  p_page_views : list JsObj;
  p_current_url : string;
  p_collected_at : Z
}.

(** How the network primitives behave during one call of [sendData].
    [navigator.sendBeacon] may be missing ([None]), return a boolean or
    throw. [fetch] may be missing too ([None]): the reference to it then
    raises before anything is called; when the host has it, the call
    returns a promise (which later fulfils or rejects) or throws. *)
Inductive Settled : Type := Fulfilled | Rejected.

Record Transport : Type := mkTransport {
  sendBeacon : option (Call bool);
  fetch : option (Call Settled)
}.

(** Observable actions of the script. *)
Inductive Effect : Type :=
| BeaconCall (url : string) (body : Payload)
| FetchCall (url : string) (body : Payload)
| Warn (msg : string).

Record State : Type := mkState {
  behaviorData : BehaviorData;
  lastMouseTime : Z;
  scrollTimeout : bool;
  effects : list Effect
}.

Definition set_data (s : State) (b : BehaviorData) : State :=
  mkState b (lastMouseTime s) (scrollTimeout s) (effects s).

(** *** Event collectors *)

Definition mouse_event (now : Z) (e : PointerMove) : JsObj :=
  [ ("x", JNum (pm_clientX e)); ("y", JNum (pm_clientY e)); ("t", JNum now);
    ("pageX", JNum (pm_pageX e)); ("pageY", JNum (pm_pageY e));
    ("movementX", JNum (pm_movementX e));
    ("movementY", JNum (pm_movementY e)) ].

Definition on_mousemove (now : Z) (e : PointerMove) (s : State) : State :=
  let b := behaviorData s in
  if 50 <? now - lastMouseTime s then
    let q := mouse_events b ++ [mouse_event now e] in
    let q' := if (MAX_EVENTS <? length q)%nat then slice_last 500 q else q in
    mkState
      (mkBehaviorData (session_id b) (session_start b) q' (click_events b)
         (scroll_events b) (key_events b) (fingerprint b) (page_views b))
      now (scrollTimeout s) (effects s)
  else s.

Definition click_event (now : Z) (e : PointerClick) : JsObj :=
  [ ("x", JNum (pc_clientX e)); ("y", JNum (pc_clientY e));
    ("btn", JNum (button e)); ("tgt", JStr (tagName (target e)));
    ("t", JNum now);
    ("id", JStr (str_or (el_id (target e)) ""));
    ("className", JStr (str_or (className (target e)) ""));
    ("text", JStr (match textContent (target e) with
                   | Some txt =>
                       if String.eqb txt "" then ""
                       else String.substring 0 50 txt
                   | None => ""
                   end)) ].

Definition on_click (now : Z) (e : PointerClick) (s : State) : State :=
  let b := behaviorData s in
  let q := click_events b ++ [click_event now e] in
  let q' := if (MAX_EVENTS <? length q)%nat then slice_last 200 q else q in
  set_data s
    (mkBehaviorData (session_id b) (session_start b) (mouse_events b) q'
       (scroll_events b) (key_events b) (fingerprint b) (page_views b)).

Definition scroll_event (now : Z) (w : Viewport) : JsObj :=
  [ ("x", JNum (scrollX w)); ("y", JNum (scrollY w)); ("t", JNum now);
    ("vw", JNum (innerWidth w)); ("vh", JNum (innerHeight w));
    ("docH", JNum (scrollHeight w)); ("docW", JNum (scrollWidth w)) ].

(** The scroll listener only re-arms the 100 ms timer. *)
Definition on_scroll (s : State) : State :=
  mkState (behaviorData s) (lastMouseTime s) true (effects s).

(** The timer callback, run when the armed timer expires. *)
Definition on_scroll_timeout (now : Z) (w : Viewport) (s : State) : State :=
  if scrollTimeout s then
    let b := behaviorData s in
    let q := scroll_events b ++ [scroll_event now w] in
    let q' := if (MAX_EVENTS <? length q)%nat then slice_last 100 q else q in
    mkState
      (mkBehaviorData (session_id b) (session_start b) (mouse_events b)
         (click_events b) q' (key_events b) (fingerprint b) (page_views b))
      (lastMouseTime s) false (effects s)
  else s.

Definition key_event (now : Z) (e : KeyboardEvent) : JsObj :=
  [ ("t", JNum now);
    ("keyCode", JNum (keyCode e));
    ("location", JNum (location e));
    ("ctrl", JBool (ctrlKey e));
    ("shift", JBool (shiftKey e));
    ("alt", JBool (altKey e));
    ("meta", JBool (metaKey e)) ].

Definition on_keydown (now : Z) (e : KeyboardEvent) (s : State) : State :=
  let b := behaviorData s in
  let q := key_events b ++ [key_event now e] in
  let q' := if (MAX_EVENTS <? length q)%nat then slice_last 300 q else q in
  set_data s
    (mkBehaviorData (session_id b) (session_start b) (mouse_events b)
       (click_events b) (scroll_events b) q' (fingerprint b) (page_views b)).

(** *** Page navigation *)

Definition page_view (now : Z) (p : Page) (type : string) : JsObj :=
  [ ("url", JStr (pathname p)); ("title", JStr (title p));
    ("ref", JStr (referrer p)); ("t", JNum now); ("type", JStr type) ].

(** The first page view has a [loadTime] and no [type];
    [timing] is [performance.timing] when the host has it, as the pair
    (loadEventEnd, navigationStart). *)
Definition initial_page_view (now : Z) (p : Page) (timing : option (Z * Z))
  : JsObj :=
  [ ("url", JStr (pathname p)); ("title", JStr (title p));
    ("ref", JStr (referrer p)); ("t", JNum now);
    ("loadTime", JNum (match timing with
                       | Some (loadEventEnd, navigationStart) =>
                           loadEventEnd - navigationStart
                       | None => 0
                       end)) ].

Definition push_page_view (v : JsObj) (s : State) : State :=
  let b := behaviorData s in
  set_data s
    (mkBehaviorData (session_id b) (session_start b) (mouse_events b)
       (click_events b) (scroll_events b) (key_events b) (fingerprint b)
       (page_views b ++ [v])).

Definition triggerPageView (type : string) (now : Z) (p : Page) (s : State)
  : State :=
  push_page_view (page_view now p type) s.

Definition on_popstate (now : Z) (p : Page) (s : State) : State :=
  push_page_view (page_view now p "spa_navigation") s.

(** *** Data transmission *)

Definition all_empty (b : BehaviorData) : bool :=
  (length (mouse_events b) =? 0)%nat
  && (length (click_events b) =? 0)%nat
  && (length (scroll_events b) =? 0)%nat
  && (length (key_events b) =? 0)%nat.

Definition dataToSend (now : Z) (p : Page) (b : BehaviorData) : Payload :=
  mkPayload (session_id b) (session_start b)
    (mouse_events b) (click_events b) (scroll_events b) (key_events b)
    (fingerprint b) (page_views b) (href p) now.

Definition clear_sent (b : BehaviorData) : BehaviorData :=
  mkBehaviorData (session_id b) (session_start b)
    (slice_last 50 (mouse_events b))
    (slice_last 20 (click_events b))
    (slice_last 10 (scroll_events b))
    (slice_last 30 (key_events b))
    (fingerprint b) (page_views b).

Definition warn_send : Effect := Warn "Bot detection: Error sending data".
Definition warn_fetch : Effect := Warn "Bot detection: Failed to send data".

(** The fallback [fetch(...).catch(...)], run when the beacon was not
    accepted: nothing is called on a host without [fetch]. *)
Definition try_fetch (tr : Transport) (d : Payload) : list Effect * bool :=
  match fetch tr with
  | None => ([], false)
  | Some Throws => ([FetchCall API_ENDPOINT d], false)
  | Some (Returns Fulfilled) => ([FetchCall API_ENDPOINT d], true)
  | Some (Returns Rejected) => ([FetchCall API_ENDPOINT d; warn_fetch], true)
  end.

(** The body of the [try] block: the effects performed, and whether the
    block ran to its end ([true]) or was left by an exception. *)
Definition try_send (tr : Transport) (d : Payload) : list Effect * bool :=
  match sendBeacon tr with
  | Some Throws => ([BeaconCall API_ENDPOINT d], false)
  | Some (Returns true) => ([BeaconCall API_ENDPOINT d], true)
  | Some (Returns false) =>
      (BeaconCall API_ENDPOINT d :: fst (try_fetch tr d), snd (try_fetch tr d))
  | None => try_fetch tr d
  end.

Definition sendData (now : Z) (p : Page) (tr : Transport) (s : State)
  : State :=
  let b := behaviorData s in
  if all_empty b then s
  else
    let d := dataToSend now p b in
    match try_send tr d with
    | (fx, true) =>
        mkState (clear_sent b) (lastMouseTime s) (scrollTimeout s)
          (effects s ++ fx)
    | (fx, false) =>
        mkState b (lastMouseTime s) (scrollTimeout s)
          (effects s ++ fx ++ [warn_send])
    end.

(** *** Scheduled transmission and page life cycle *)

Definition on_beforeunload (now : Z) (p : Page) (now' : Z) (tr : Transport)
    (s : State) : State :=
  sendData now' p tr (push_page_view (page_view now p "page_exit") s).

Definition on_visibilitychange (visible : bool) (now : Z) (p : Page)
    (s : State) : State :=
  if visible then push_page_view (page_view now p "tab_return") s else s.

(** *** The script as a transition system *)

Inductive Input : Type :=
| MouseMove (now : Z) (e : PointerMove)
| Click (now : Z) (e : PointerClick)
| Scroll
| ScrollTimeout (now : Z) (w : Viewport)
| KeyDown (now : Z) (e : KeyboardEvent)
| PopState (now : Z) (p : Page)
| PushState (now : Z) (p : Page)
| ReplaceState (now : Z) (p : Page)
| Interval (now : Z) (p : Page) (tr : Transport)
| BeforeUnload (now : Z) (p : Page) (now' : Z) (tr : Transport)
| VisibilityChange (visible : bool) (now : Z) (p : Page).

Definition step (s : State) (i : Input) : State :=
  match i with
  | MouseMove now e => on_mousemove now e s
  | Click now e => on_click now e s
  | Scroll => on_scroll s
  | ScrollTimeout now w => on_scroll_timeout now w s
  | KeyDown now e => on_keydown now e s
  | PopState now p => on_popstate now p s
  | PushState now p => triggerPageView "spa_pushstate" now p s
  | ReplaceState now p => triggerPageView "spa_replacestate" now p s
  | Interval now p tr => sendData now p tr s
  | BeforeUnload now p now' tr => on_beforeunload now p now' tr s
  | VisibilityChange visible now p => on_visibilitychange visible now p s
  end.

(** What the top level of the script reads while it initialises, in
    program order; [fp] is the object returned by [getFingerprint]. *)
Record Boot : Type := mkBoot {
  stored_session : option string;
  now_session : Z;
  rnd : string;
  now_start : Z;
  fp : JsObj;
  now_mouse : Z;
  now_view : Z;
  page : Page;
  timing : option (Z * Z)
}.

Definition init (bt : Boot) : State :=
  mkState
    (mkBehaviorData
       (fst (getSessionId (stored_session bt) (now_session bt) (rnd bt)))
       (now_start bt) [] [] [] [] (fp bt)
       [initial_page_view (now_view bt) (page bt) (timing bt)])
    (now_mouse bt) false [].

Definition run (bt : Boot) (inputs : list Input) : State :=
  fold_left step inputs (init bt).

(** *** Fingerprint collection *)

(** [navigator.connection] *)
Module Connection.
Record t : Type := mk {
  effectiveType : JsVal;
  downlink : JsVal;
  rtt : JsVal
}.
End Connection.

(** What [getFingerprint] reads from [navigator]; an optional field is
    [None] when the host does not define it. [javaEnabled] is the result
    of calling the function when the host has it. *)
Module Navigator.
Record t : Type := mk {
  userAgent : string;
  language : string;
  platform : string;
  maxTouchPoints : option Z;
  cookieEnabled : bool;
  javaEnabled : option bool;
  pdfViewerEnabled : option bool;
  doNotTrack : option JsVal;
  connection : option Connection.t;
  deviceMemory : option JsVal;
  hardwareConcurrency : option JsVal
}.
End Navigator.

(** [screen] *)
Module Screen.
Record t : Type := mk {
  width : Z;
  height : Z;
  colorDepth : Z
}.
End Screen.

(** [timeZone] is [Intl.DateTimeFormat().resolvedOptions().timeZone]. *)
Definition getFingerprint (navigator : Navigator.t) (screen : Screen.t)
    (timeZone : string) : JsObj :=
  [ ("ua", JStr (Navigator.userAgent navigator));
    ("lang", JStr (Navigator.language navigator));
    ("plat", JStr (Navigator.platform navigator));
    ("scrw", JNum (Screen.width screen));
    ("scrh", JNum (Screen.height screen));
    ("color", JNum (Screen.colorDepth screen));
    ("tz", JStr timeZone);
    ("maxTouch", JNum (num_or (Navigator.maxTouchPoints navigator) 0));
    ("cookies", JBool (Navigator.cookieEnabled navigator));
    ("java", JBool (default false (Navigator.javaEnabled navigator)));
    ("pdf", JBool (default false (Navigator.pdfViewerEnabled navigator)));
    ("doNotTrack",
      val_or (Navigator.doNotTrack navigator) (JStr "unspecified"));
    ("connection",
      match Navigator.connection navigator with
      | Some c =>
          JObj [ ("effectiveType", Connection.effectiveType c);
                 ("downlink", Connection.downlink c);
                 ("rtt", Connection.rtt c) ]
      | None => JNull
      end);
    ("deviceMemory",
      val_or (Navigator.deviceMemory navigator) (JStr "unknown"));
    ("hardwareConcurrency",
      val_or (Navigator.hardwareConcurrency navigator) (JStr "unknown")) ].

End Client.

(** ** The persisted record (Mongoose model [BehaviorData]) *)

Module Schema.

Inductive SchemaType : Type := SNumber | SString.

Definition mouseEventSchema : list (string * SchemaType) :=
  [ ("x", SNumber); ("y", SNumber); ("t", SNumber) ].

Definition clickEventSchema : list (string * SchemaType) :=
  [ ("x", SNumber); ("y", SNumber); ("btn", SNumber); ("tgt", SString);
    ("t", SNumber) ].

Definition scrollEventSchema : list (string * SchemaType) :=
  [ ("x", SNumber); ("y", SNumber); ("t", SNumber) ].

Definition keyEventSchema : list (string * SchemaType) :=
  [ ("t", SNumber) ].

Definition pageViewSchema : list (string * SchemaType) :=
  [ ("url", SString); ("title", SString); ("ref", SString); ("t", SNumber) ].

Definition fingerprintSchema : list (string * SchemaType) :=
  [ ("ua", SString); ("lang", SString); ("plat", SString);
    ("scrw", SNumber); ("scrh", SNumber); ("color", SNumber);
    ("tz", SString); ("maxTouch", SNumber) ].

Definition declared (sch : list (string * SchemaType)) (k : string) : bool :=
  bool_decide (k ∈ map fst sch).

(** A schema is strict: a path that it does not declare is not stored.
    The embedding covers the declared paths of a sub-document whose posted
    values already have the declared type, as the collector sends them: it
    keeps such a value as posted. The conversion of a value of another type
    and the identifier that the store generates for each sub-document are
    not part of it. *)
Definition project (sch : list (string * SchemaType)) (o : JsObj) : JsObj :=
  List.filter (fun kv => declared sch (fst kv)) o.

End Schema.

(** ** The behaviour controller *)

Module Server.

(** A stored document of the collection, after the schema was applied.
    [collected_at] is in milliseconds since the epoch. *)
Record BehaviorData : Type := mkBehaviorData {
  _id : nat;
  session_id : string;
  session_start : Z;
  mouse_events : list JsObj;
  click_events : list JsObj;
  scroll_events : list JsObj;
  key_events : list JsObj;
  fingerprint : option JsObj;
  page_views : list JsObj;
  collected_at : Z;
  ip_address : option string;
  user_agent : option string
}.

(** The collection, in storage order (the order of a scan of the whole
    collection, as the aggregation of [getSessions] performs); [create]
    adds at the end. *)
Definition Db : Type := list BehaviorData.

(** The parsed JSON body of a POST request, typed after the wire format;
    a field that the body does not carry is [None] (an array: empty). *)
Module Body.
Record t : Type := mk {
  session_id : option string;
  session_start : option Z;
  mouse_events : list JsObj;
  click_events : list JsObj;
  scroll_events : list JsObj;
  key_events : list JsObj;
  fingerprint : option JsObj;
  page_views : list JsObj;
  current_url : option string;
  collected_at : option Z
}.
End Body.

(** The query string of a GET request. *)
Module Query.
Record t : Type := mk {
  page : option string;
  limit : option string;
  session_id : option string
}.
End Query.

Record Request : Type := mkRequest {
  body : Body.t;
  query : Query.t;
  ip : option string;
  remoteAddress : option string;
  userAgent : option string
}.

(** What a handler reads from its environment during one request: the
    deployment flag, the clock, whether the store fails (with which error
    message) during this request, and the order in which the store returns
    the documents of a find that requests no sort: by ascending
    [scan_key] (the storage position for a scan of the collection, the
    opposite of [collected_at] for a scan of the index declared on
    [collected_at] descending; the handler does not choose). *)
Record Env : Type := mkEnv {
  production : bool;
  now : Z;
  fault : option string;
  scan_key : BehaviorData -> Z
}.

Inductive Response (A : Type) : Type :=
| Status200 (json : A)
| Status400 (message : string)
| Status500 (message : string) (error : option string).
Arguments Status200 {A} json.
Arguments Status400 {A} message.
Arguments Status500 {A} message error.

Definition status {A : Type} (r : Response A) : Z :=
  match r with
  | Status200 _ => 200
  | Status400 _ => 400
  | Status500 _ _ => 500
  end.

(** The [catch] block shared by the handlers. *)
Definition internal_error {A : Type} (env : Env) (msg : string) : Response A :=
  Status500 "Internal server error"
    (if production env then None else Some msg).

(** *** POST /api/collect-behavior *)

Record DataToSave : Type := mkDataToSave {
  fields : Body.t;
  dts_ip_address : option string;
  dts_user_agent : option string
}.

(** [required: true] on a String path rejects an absent or empty value,
    on a Number path an absent value. *)
Definition validate (d : DataToSave) : option string :=
  match Body.session_id (fields d) with
  | None => Some "BehaviorData validation failed: session_id: Path `session_id` is required."
  | Some sid =>
      if String.eqb sid ""
      then Some "BehaviorData validation failed: session_id: Path `session_id` is required."
      else
        match Body.session_start (fields d) with
        | None => Some "BehaviorData validation failed: session_start: Path `session_start` is required."
        | Some _ => None
        end
  end.

(** The document that the model builds from the object given to
    [create]: paths outside the schema are dropped, [collected_at]
    defaults to the current time. The sub-documents are those of
    [Schema.project], within its limits; [id] stands for the identifier
    that the store generates. *)
Definition document (env : Env) (id : nat) (d : DataToSave) : BehaviorData :=
  let b := fields d in
  mkBehaviorData id
    (default "" (Body.session_id b))
    (default 0 (Body.session_start b))
    (map (Schema.project Schema.mouseEventSchema) (Body.mouse_events b))
    (map (Schema.project Schema.clickEventSchema) (Body.click_events b))
    (map (Schema.project Schema.scrollEventSchema) (Body.scroll_events b))
    (map (Schema.project Schema.keyEventSchema) (Body.key_events b))
    (option_map (Schema.project Schema.fingerprintSchema) (Body.fingerprint b))
    (map (Schema.project Schema.pageViewSchema) (Body.page_views b))
    (default (now env) (Body.collected_at b))
    (dts_ip_address d) (dts_user_agent d).

(** [BehaviorData.create]: validation, then the write; an error leaves
    the collection as it was. *)
Definition create (env : Env) (d : DataToSave) (db : Db)
  : (string + BehaviorData) * Db :=
  match validate d with
  | Some msg => (inl msg, db)
  | None =>
      match fault env with
      | Some msg => (inl msg, db)
      | None =>
          let saved := document env (length db) d in
          (inr saved, db ++ [saved])
      end
  end.

Record Collected : Type := mkCollected {
  c_message : string;
  c_session_id : string;
  c_record_id : nat
}.

(** [!behaviorData.session_id] *)
Definition no_session_id (b : Body.t) : bool :=
  match Body.session_id b with
  | None => true
  | Some sid => String.eqb sid ""
  end.

Definition collectBehavior (env : Env) (req : Request) (db : Db)
  : Response Collected * Db :=
  let behaviorData := body req in
  if no_session_id behaviorData then
    (Status400 "session_id is required", db)
  else
    let dataToSave :=
      mkDataToSave behaviorData
        (opt_str_or (ip req) (remoteAddress req))
        (userAgent req) in
    match create env dataToSave db with
    | (inr savedData, db') =>
        (Status200
           (mkCollected "Behavior data collected successfully"
              (default "" (Body.session_id behaviorData))
              (_id savedData)),
         db')
    | (inl msg, db') => (internal_error env msg, db')
    end.

(** *** Queries on the collection *)

(** The filter object built from the optional [session_id] parameter:
    [if (sessionId) query.session_id = sessionId]. *)
Definition matches (sessionId : option string) (d : BehaviorData) : bool :=
  match sessionId with
  | None => true
  | Some sid => if String.eqb sid "" then true else String.eqb (session_id d) sid
  end.

(** [{ collected_at: -1 }] *)
Definition newer_first (a b : BehaviorData) : Prop :=
  collected_at b ≤ collected_at a.

#[global] Instance newer_first_dec : RelDecision newer_first.
Proof. intros a b. unfold newer_first. apply _. Defined.

#[global] Instance newer_first_total : Total newer_first.
Proof. intros a b. unfold newer_first. lia. Qed.

#[global] Instance newer_first_trans : Transitive newer_first.
Proof. intros a b c. unfold newer_first. lia. Qed.

Definition sort_collected_desc (l : list BehaviorData) : list BehaviorData :=
  merge_sort newer_first l.

(** [.limit(n)] of a find: none for 0, the absolute value for a
    negative number. *)
Definition find_limit {A : Type} (n : Z) (l : list A) : list A :=
  if n =? 0 then l else take (Z.to_nat (Z.abs n)) l.

(** [find(query).sort({collected_at: -1}).skip(skip).limit(limit)];
    the store refuses a negative skip. *)
Definition find_page (sessionId : option string) (skip limit : Z) (db : Db)
  : string + list BehaviorData :=
  if skip <? 0 then inl "Skip value must be non-negative"
  else
    inr (find_limit limit
           (drop (Z.to_nat skip)
              (sort_collected_desc (List.filter (matches sessionId) db)))).

Definition countDocuments (sessionId : option string) (db : Db) : nat :=
  length (List.filter (matches sessionId) db).

(** [distinct('session_id')] *)
Definition distinct_session_id (db : Db) : list string :=
  remove_dups (map session_id db).

(** *** GET /api/behavior-data *)

Record Pagination : Type := mkPagination {
  current : Z;
  total : Z;
  totalRecords : nat;
  hasNext : bool;
  hasPrev : bool
}.

Record BehaviorPage : Type := mkBehaviorPage {
  data : list BehaviorData;
  pagination : Pagination
}.

Definition getBehaviorData (env : Env) (req : Request) (db : Db)
  : Response BehaviorPage :=
  let page := num_or (parseInt (Query.page (query req))) 1 in
  let limit := num_or (parseInt (Query.limit (query req))) 50 in
  let sessionId := Query.session_id (query req) in
  let skip := (page - 1) * limit in
  match fault env with
  | Some msg => internal_error env msg
  | None =>
      match find_page sessionId skip limit db with
      | inl msg => internal_error env msg
      | inr data =>
          let total := countDocuments sessionId db in
          let totalPages := Math_ceil_div (Z.of_nat total) limit in
          Status200
            (mkBehaviorPage data
               (mkPagination page totalPages total
                  (page <? totalPages) (1 <? page)))
      end
  end.

(** *** GET /api/behavior-data/:id *)

Inductive RecordResponse : Type :=
| Record200 (data : BehaviorData)
| Record404 (message : string)
| Record500 (message : string) (error : option string).

(** [BehaviorData.findById(recordId)] *)
Definition findById (recordId : nat) (db : Db) : option BehaviorData :=
  List.find (fun d => Nat.eqb (_id d) recordId) db.

(** [recordId] is the route parameter read as an identifier, [None] when
    the text is not one (the store then fails to cast it). *)
Definition getBehaviorDataById (env : Env) (recordId : option nat) (db : Db)
  : RecordResponse :=
  match recordId, fault env with
  | None, _ =>
      Record500 "Internal server error"
        (if production env then None
         else Some "Cast to ObjectId failed for value at path _id")
  | Some _, Some msg =>
      Record500 "Internal server error"
        (if production env then None else Some msg)
  | Some id, None =>
      match findById id db with
      | Some data => Record200 data
      | None => Record404 "Behavior data record not found"
      end
  end.

(** *** GET /api/sessions *)

(** A row produced by the [$group] stage. *)
Module Session.
Record t : Type := mk {
  _id : string;
  session_start : Z;
  fingerprint : option JsObj;
  last_activity : Z;
  page_views_count : nat;
  mouse_events_count : nat;
  click_events_count : nat;
  scroll_events_count : nat;
  key_events_count : nat;
  total_records : nat
}.
End Session.

(** The row that the first document of a session opens. *)
Definition open_row (d : BehaviorData) : Session.t :=
  Session.mk (session_id d) (session_start d) (fingerprint d)
    (collected_at d)
    (length (page_views d)) (length (mouse_events d))
    (length (click_events d)) (length (scroll_events d))
    (length (key_events d)) 1.

(** The accumulators fed with one more document of the session:
    [$first] keeps its value, [$max] and [$sum] are updated. *)
Definition accumulate (r : Session.t) (d : BehaviorData) : Session.t :=
  Session.mk (Session._id r) (Session.session_start r)
    (Session.fingerprint r)
    (Z.max (Session.last_activity r) (collected_at d))
    (Session.page_views_count r + length (page_views d))
    (Session.mouse_events_count r + length (mouse_events d))
    (Session.click_events_count r + length (click_events d))
    (Session.scroll_events_count r + length (scroll_events d))
    (Session.key_events_count r + length (key_events d))
    (Session.total_records r + 1).

Fixpoint feed (rows : list Session.t) (d : BehaviorData) : list Session.t :=
  match rows with
  | [] => [open_row d]
  | r :: rows' =>
      if String.eqb (Session._id r) (session_id d)
      then accumulate r d :: rows'
      else r :: feed rows' d
  end.

(** The [$group] stage: one pass over the collection. *)
Definition group_by_session (db : Db) : list Session.t :=
  fold_left feed db [].

(** [{ $sort: { last_activity: -1 } }] *)
Definition latest_first (a b : Session.t) : Prop :=
  Session.last_activity b ≤ Session.last_activity a.

#[global] Instance latest_first_dec : RelDecision latest_first.
Proof. intros a b. unfold latest_first. apply _. Defined.

#[global] Instance latest_first_total : Total latest_first.
Proof. intros a b. unfold latest_first. lia. Qed.

#[global] Instance latest_first_trans : Transitive latest_first.
Proof. intros a b c. unfold latest_first. lia. Qed.

(** The pipeline; the store refuses a negative [$skip] and a [$limit]
    that is not positive. *)
Definition aggregate (skip limit : Z) (db : Db) : string + list Session.t :=
  if skip <? 0 then inl "Argument to $skip cannot be negative"
  else if limit <=? 0 then inl "the limit must be positive"
  else
    inr (take (Z.to_nat limit)
           (drop (Z.to_nat skip)
              (merge_sort latest_first (group_by_session db)))).

Record SessionPagination : Type := mkSessionPagination {
  sp_current : Z;
  sp_total : Z;
  totalSessions : nat
}.

Record SessionPage : Type := mkSessionPage {
  sessions : list Session.t;
  sessions_pagination : SessionPagination
}.

Definition getSessions (env : Env) (req : Request) (db : Db)
  : Response SessionPage :=
  let page := num_or (parseInt (Query.page (query req))) 1 in
  let limit := num_or (parseInt (Query.limit (query req))) 50 in
  let skip := (page - 1) * limit in
  match fault env with
  | Some msg => internal_error env msg
  | None =>
      match aggregate skip limit db with
      | inl msg => internal_error env msg
      | inr sessions =>
          let totalSessions := length (distinct_session_id db) in
          Status200
            (mkSessionPage sessions
               (mkSessionPagination page
                  (Math_ceil_div (Z.of_nat totalSessions) limit)
                  totalSessions))
      end
  end.

(** *** GET /api/stats *)

Record EventStats : Type := mkEventStats {
  total_mouse_events : nat;
  total_click_events : nat;
  total_scroll_events : nat;
  total_key_events : nat;
  total_page_views : nat
}.

Record Stats : Type := mkStats {
  total_records : nat;
  total_sessions : nat;
  last_24_hours : nat;
  event_statistics : EventStats
}.

(** [{ collected_at: { $gte: last24Hours } }] *)
Definition since (t : Z) (d : BehaviorData) : bool := t <=? collected_at d.

(** [sampleData.reduce((sum, record) => sum + record.f.length, 0)] *)
Definition reduce_length (f : BehaviorData -> list JsObj)
    (sampleData : list BehaviorData) : nat :=
  fold_left (fun sum record => (sum + length (f record))%nat) sampleData 0%nat.

(** The order of a find without sort. *)
Definition scan_order (env : Env) (a b : BehaviorData) : Prop :=
  scan_key env a ≤ scan_key env b.

#[global] Instance scan_order_dec (env : Env) : RelDecision (scan_order env).
Proof. intros a b. unfold scan_order. apply _. Defined.

#[global] Instance scan_order_total (env : Env) : Total (scan_order env).
Proof. intros a b. unfold scan_order. lia. Qed.

#[global] Instance scan_order_trans (env : Env) : Transitive (scan_order env).
Proof. intros a b c. unfold scan_order. lia. Qed.

(** [BehaviorData.find(filter)] with no sort: the matching documents as
    the store enumerates them. *)
Definition find_unsorted (env : Env) (matching : BehaviorData -> bool)
    (db : Db) : list BehaviorData :=
  merge_sort (scan_order env) (List.filter matching db).

Definition getStats (env : Env) (db : Db) : Response Stats :=
  match fault env with
  | Some msg => internal_error env msg
  | None =>
      let totalRecords := length db in
      let totalSessions := length (distinct_session_id db) in
      let last24Hours := now env - 24 * 60 * 60 * 1000 in
      let recentRecords := length (List.filter (since last24Hours) db) in
      let sampleData :=
        find_limit 1000 (find_unsorted env (since last24Hours) db) in
      let eventStats :=
        mkEventStats
          (reduce_length mouse_events sampleData)
          (reduce_length click_events sampleData)
          (reduce_length scroll_events sampleData)
          (reduce_length key_events sampleData)
          (reduce_length page_views sampleData) in
      Status200 (mkStats totalRecords totalSessions recentRecords eventStats)
  end.

End Server.

(** ** Vocabulary of the statements, and sample inputs *)

Module Props.
Import Client.

(** The time stamp of a queued event. *)
Definition t_of (o : JsObj) : Z := num_field "t" o.

(** Consecutive elements of the queue are at least [gap] ms apart. *)
Definition spaced (gap : Z) (q : list JsObj) : Prop :=
  ∀ (i : nat) (a b : JsObj),
    q !! i = Some a → q !! S i = Some b → gap ≤ t_of b - t_of a.

(** [q'] consists of the most recent elements of [q], at most [floor]
    of them. *)
Definition most_recent_of (floor : nat) (q q' : list JsObj) : Prop :=
  (length q' ≤ floor)%nat
  ∧ length q' = Nat.min floor (length q)
  ∧ ∃ older, q = older ++ q'.

(** Outcome of pushing [e] on [q] under the cap with retention [floor]. *)
Definition appended_with_cap (floor : nat) (q : list JsObj) (e : JsObj)
    (q' : list JsObj) : Prop :=
  last q' = Some e
  ∧ ((length q < MAX_EVENTS)%nat → q' = q ++ [e])
  ∧ ((MAX_EVENTS ≤ length q)%nat →
     length q' = floor ∧ ∃ dropped, q ++ [e] = dropped ++ q').

(** The four queues that [sendData] inspects are empty. *)
Definition no_events (b : BehaviorData) : Prop :=
  mouse_events b = [] ∧ click_events b = [] ∧ scroll_events b = []
  ∧ key_events b = [].

(** The payload carries the buffer, the page URL and the send time. *)
Definition snapshot_of (now : Z) (p : Page) (b : BehaviorData) (d : Payload)
  : Prop :=
  p_session_id d = session_id b
  ∧ p_session_start d = session_start b
  ∧ p_mouse_events d = mouse_events b
  ∧ p_click_events d = click_events b
  ∧ p_scroll_events d = scroll_events b
  ∧ p_key_events d = key_events b
  ∧ p_page_views d = page_views b
  ∧ p_fingerprint d = fingerprint b
  ∧ p_current_url d = href p
  ∧ p_collected_at d = now.

(** The network calls of [sendData] are made and return (whatever they
    return): the beacon is accepted, or it is missing or refuses and the
    host has a [fetch] whose call returns. *)
Definition completes (tr : Transport) : bool :=
  match sendBeacon tr with
  | Some Throws => false
  | Some (Returns true) => true
  | Some (Returns false) | None =>
      match fetch tr with
      | Some (Returns _) => true
      | Some Throws | None => false
      end
  end.

(** The host has a primitive that [sendData] can call first: a beacon,
    or, without a beacon, [fetch]. *)
Definition has_primitive (tr : Transport) : Prop :=
  sendBeacon tr ≠ None ∨ fetch tr ≠ None.

(** [x] hands the payload [d] to a network primitive. *)
Definition delivers (d : Payload) (x : Effect) : Prop :=
  x = BeaconCall API_ENDPOINT d ∨ x = FetchCall API_ENDPOINT d.

(** None of the four event queues is longer than the cap. *)
Definition within_cap (b : BehaviorData) : Prop :=
  (length (mouse_events b) ≤ MAX_EVENTS)%nat
  ∧ (length (click_events b) ≤ MAX_EVENTS)%nat
  ∧ (length (scroll_events b) ≤ MAX_EVENTS)%nat
  ∧ (length (key_events b) ≤ MAX_EVENTS)%nat.

(** The throttle of the mousemove listener: queued mouse events are more
    than 50 ms apart, and [lastMouseTime] is the time stamp of the most
    recent of them. *)
Definition throttled (s : State) : Prop :=
  spaced 51 (mouse_events (behaviorData s))
  ∧ ∀ ev, last (mouse_events (behaviorData s)) = Some ev →
          t_of ev = lastMouseTime s.

(** Field names that carry a time stamp, a modifier flag or the key
    location. *)
Definition timing_fields : list string :=
  ["t"; "location"; "ctrl"; "shift"; "alt"; "meta"].

End Props.

Module Samples.
Import Client.

Definition page0 : Page :=
  mkPage "/" "https://shop.example/" "Shop" "".

Definition boot0 : Boot :=
  mkBoot None 1000 "k3j9x2m1q" 1000 [("ua", JStr "Mozilla/5.0")]
    1000 1000 page0 None.

Definition key_a : KeyboardEvent :=
  mkKeyboardEvent "a" "KeyA" 65 0 false false false false.

Definition key_b : KeyboardEvent :=
  mkKeyboardEvent "b" "KeyB" 66 0 false false false false.

Definition move0 : PointerMove := mkPointerMove 10 20 10 20 1 1.

Definition click0 : PointerClick :=
  mkPointerClick 10 20 0 (mkElement "BUTTON" "buy" "btn" (Some "Buy now")).

Definition view0 : Viewport := mkViewport 0 120 1280 720 4000 1280.

(** A host that accepts the beacon. *)
Definition beacon_ok : Transport :=
  mkTransport (Some (Returns true)) (Some (Returns Fulfilled)).

(** A host that refuses the beacon and whose request later fails. *)
Definition beacon_refused : Transport :=
  mkTransport (Some (Returns false)) (Some (Returns Rejected)).

(** A host with neither [navigator.sendBeacon] nor [fetch]. *)
Definition no_transport : Transport := mkTransport None None.

(** A host without beacon whose [fetch] succeeds. *)
Definition fetch_only : Transport :=
  mkTransport None (Some (Returns Fulfilled)).

(** Sixty pointer moves, 100 ms apart. *)
Definition sixty_moves : list Input :=
  map (fun i : nat => MouseMove (1000 + 100 * Z.of_nat i) move0) (seq 1 60).

(** A thousand and one history pushes. *)
Definition many_pushes : list Input :=
  repeat (PushState 2000 page0) 1001.

End Samples.

(** ** Vocabulary and sample inputs for the controller *)

Module ServerProps.
Import Server.

(** [k] is the ceiling of [a / b], for a positive [b]. *)
Definition is_ceiling (k a b : Z) : Prop := (k - 1) * b < a ≤ k * b.

(** The optional session filter of a query selects [d]: an absent or
    empty parameter selects every document. *)
Definition selected (sessionId : option string) (d : BehaviorData) : Prop :=
  match sessionId with
  | Some sid => sid ≠ "" → session_id d = sid
  | None => True
  end.

(** The documents of session [sid], in the order of the collection. *)
Definition of_session (sid : string) (db : Db) : list BehaviorData :=
  List.filter (fun d => String.eqb (session_id d) sid) db.

(** The total length of the arrays [f] of the documents [ds]. *)
Definition total_length (f : BehaviorData → list JsObj)
    (ds : list BehaviorData) : nat :=
  sum_list_with (fun d => length (f d)) ds.

(** [t] is the greatest [collected_at] among [ds]. *)
Definition latest (t : Z) (ds : list BehaviorData) : Prop :=
  (∀ d, d ∈ ds → collected_at d ≤ t) ∧ (∃ d, d ∈ ds ∧ collected_at d = t).

(** The row [r] summarises the documents [ds] of its session: first-seen
    start and fingerprint, latest [collected_at], summed array lengths and
    number of documents. *)
Definition summarises (r : Session.t) (ds : list BehaviorData) : Prop :=
  (∃ d0 rest, ds = d0 :: rest
              ∧ Session.session_start r = session_start d0
              ∧ Session.fingerprint r = fingerprint d0)
  ∧ latest (Session.last_activity r) ds
  ∧ Session.page_views_count r = total_length page_views ds
  ∧ Session.mouse_events_count r = total_length mouse_events ds
  ∧ Session.click_events_count r = total_length click_events ds
  ∧ Session.scroll_events_count r = total_length scroll_events ds
  ∧ Session.key_events_count r = total_length key_events ds
  ∧ Session.total_records r = length ds.

(** [sample] consists of the [n] most recent documents of [window] (all
    of them when there are fewer): no document left out is more recent
    than one taken. *)
Definition most_recent_sample (n : nat) (window sample : list BehaviorData)
  : Prop :=
  sample ⊆+ window
  ∧ length sample = Nat.min n (length window)
  ∧ ∀ a b, a ∈ sample → b ∈ window → b ∉ sample →
           collected_at b ≤ collected_at a.

(** The documents ingested in the 24 hours before [now]. *)
Definition last_day (now : Z) (db : Db) : list BehaviorData :=
  List.filter (fun d => bool_decide (now - 86400000 ≤ collected_at d)) db.

End ServerProps.

Module ServerSamples.
Import Server.

(** A store that answers a find without sort from the index on
    [collected_at] descending: newest first. *)
Definition by_index (d : BehaviorData) : Z := - collected_at d.


Definition env0 : Env := mkEnv true 100000 None by_index.


Definition env_down : Env :=
  mkEnv true 100000 (Some "connection lost") by_index.

Definition env_dev_down : Env :=
  mkEnv false 100000 (Some "connection lost") by_index.

Definition no_query : Query.t := Query.mk None None None.

Definition body_empty : Body.t :=
  Body.mk None None [] [] [] [] None [] None None.

Definition body_s1 : Body.t :=
  Body.mk (Some "s1") (Some 1000) [] [] []
    [Client.key_event 5000 Samples.key_a] (Some [("ua", JStr "Mozilla/5.0")])
    [Client.initial_page_view 1000 Samples.page0 None]
    (Some "https://shop.example/") (Some 9000).

Definition body_no_start : Body.t :=
  Body.mk (Some "s1") None [] [] [] [] None [] None None.

Definition post_request (b : Body.t) : Request :=
  mkRequest b no_query (Some "203.0.113.7") None (Some "Mozilla/5.0").

Definition get_request (q : Query.t) : Request :=
  mkRequest body_empty q (Some "203.0.113.7") None (Some "Mozilla/5.0").

(** A document of session [sid] collected at [ts], with [n] page views and
    [m] mouse events. *)
Definition doc (id : nat) (sid : string) (ts : Z) (n m : nat) : BehaviorData :=
  mkBehaviorData id sid 1000
    (repeat [("x", JNum 1); ("y", JNum 2); ("t", JNum ts)] m) [] [] []
    (Some [("ua", JStr ("agent of " +:+ pretty id))])
    (repeat [("url", JStr "/"); ("t", JNum ts)] n) ts None None.

(** Five documents of session s1 and one of session s2. *)
Definition six_docs : Db :=
  [ doc 0 "s1" 10 1 0; doc 1 "s2" 15 1 3; doc 2 "s1" 20 2 0;
    doc 3 "s1" 50 0 1; doc 4 "s1" 30 1 1; doc 5 "s1" 40 0 0 ].

(** A thousand documents without events collected at time 10, followed by
    one more recent document with one mouse event. *)
Definition old_docs : Db :=
  map (fun i : nat => doc i "s1" 10 0 0) (seq 0 1000).

Definition newest_doc : BehaviorData := doc 1000 "s1" 20 0 1.

Definition busy_db : Db := old_docs ++ [newest_doc].

End ServerSamples.

(** ** Further vocabulary *)

Module MoreProps.
Import Client.

(** The inputs that run [sendData]. *)
Definition is_flush (i : Input) : bool :=
  match i with
  | Interval _ _ _ | BeforeUnload _ _ _ _ => true
  | _ => false
  end.

Definition is_beacon_call (x : Effect) : bool :=
  match x with BeaconCall _ _ => true | _ => false end.

Definition is_fetch_call (x : Effect) : bool :=
  match x with FetchCall _ _ => true | _ => false end.

(** The request that a network call carries. *)
Definition call_of (x : Effect) : option (string * Payload) :=
  match x with
  | BeaconCall url body | FetchCall url body => Some (url, body)
  | Warn _ => None
  end.

(** A burst of [k] scroll events followed by the expiry of the timer. *)
Definition scroll_burst (k : nat) (now : Z) (w : Viewport) : list Input :=
  repeat Scroll k ++ [ScrollTimeout now w].

(** The navigation-type tags of the page views pushed after the first. *)
Definition navigation_types : list string :=
  ["spa_navigation"; "spa_pushstate"; "spa_replacestate"; "page_exit";
   "tab_return"].

(** Every queued event is an object built by its collector. *)
Definition shaped (b : BehaviorData) : Prop :=
  Forall (fun ev => ∃ now e, ev = mouse_event now e) (mouse_events b)
  ∧ Forall (fun ev => ∃ now e, ev = click_event now e) (click_events b)
  ∧ Forall (fun ev => ∃ now w, ev = scroll_event now w) (scroll_events b)
  ∧ Forall (fun ev => ∃ now e, ev = key_event now e) (key_events b)
  ∧ Forall (fun v => (∃ now p timing, v = initial_page_view now p timing)
                     ∨ ∃ now p type, v = page_view now p type
                                     ∧ type ∈ navigation_types)
      (page_views b).

End MoreProps.

Module MoreServerProps.
Import Server.

(** The collection after a sequence of posts, each with its environment. *)
Definition collect_all (posts : list (Env * Request)) (db : Db) : Db :=
  fold_left (fun db post => snd (collectBehavior (fst post) (snd post) db))
    posts db.

(** The records of an answer of the paginated retrieval (none when it is
    not a 200). *)
Definition data_of (r : Response BehaviorPage) : list BehaviorData :=
  match r with
  | Status200 pg => data pg
  | _ => []
  end.

(** The request asks for page [i + 1] of size [limit] of the documents
    selected by [sessionId]. *)
Definition asks_page (limit : Z) (sessionId : option string) (i : nat)
    (req : Request) : Prop :=
  num_or (parseInt (Query.page (query req))) 1 = Z.of_nat i + 1
  ∧ num_or (parseInt (Query.limit (query req))) 50 = limit
  ∧ Query.session_id (query req) = sessionId.

(** Requests for the first three pages of size 2 of session s1. *)
Definition three_pages : list Request :=
  map (fun p => ServerSamples.get_request
                  (Query.mk (Some p) (Some "2") (Some "s1")))
    ["1"; "2"; "3"].

(** A host as [getFingerprint] reads it. *)
Definition navigator0 : Client.Navigator.t :=
  Client.Navigator.mk "Mozilla/5.0" "en-US" "Linux x86_64" None true None
    (Some true) None None (Some (JNum 8)) (Some (JNum 4)).

End MoreServerProps.

(** * Properties *)

Import Client Props Samples.

(** ** Array helpers *)

Section SliceLast.
Context {A : Type}.
Implicit Types (l : list A) (n : nat).

Lemma slice_last_length n l :
  length (slice_last n l) = Nat.min n (length l).
Proof. unfold slice_last. rewrite length_drop. lia. Qed.

Lemma slice_last_suffix n l :
  take (length l - n) l ++ slice_last n l = l.
Proof. unfold slice_last. apply take_drop. Qed.

Lemma slice_last_short n l :
  (length l ≤ n)%nat → slice_last n l = l.
Proof.
  intros Hle. unfold slice_last.
  replace (length l - n)%nat with 0%nat by lia. reflexivity.
Qed.

Lemma slice_last_lookup n l (i : nat) :
  slice_last n l !! i = l !! (length l - n + i)%nat.
Proof. unfold slice_last. apply lookup_drop. Qed.

Lemma slice_last_last n l :
  (0 < n)%nat → last (slice_last n l) = last l.
Proof.
  intros Hn. rewrite !last_lookup, slice_last_lookup, slice_last_length.
  destruct l as [|x l]; [reflexivity|].
  f_equal. cbn [length]. lia.
Qed.

Lemma last_snoc_cap (cap n : nat) l x :
  (0 < n)%nat →
  last (if (cap <? length (l ++ [x]))%nat
        then slice_last n (l ++ [x]) else l ++ [x]) = Some x.
Proof.
  intros Hn. destruct (cap <? length (l ++ [x]))%nat.
  - rewrite slice_last_last by done. apply last_snoc.
  - apply last_snoc.
Qed.
End SliceLast.

Lemma most_recent_of_slice (floor : nat) (q : list JsObj) :
  most_recent_of floor q (slice_last floor q).
Proof.
  unfold most_recent_of. rewrite slice_last_length.
  split; [lia|]. split; [reflexivity|].
  exists (take (length q - floor) q). symmetry. apply slice_last_suffix.
Qed.

Lemma appended_with_cap_push (floor : nat) (q : list JsObj) (e : JsObj) :
  (0 < floor ≤ MAX_EVENTS)%nat →
  appended_with_cap floor q e
    (if (MAX_EVENTS <? length (q ++ [e]))%nat
     then slice_last floor (q ++ [e]) else q ++ [e]).
Proof.
  intros [Hpos Hle]. unfold appended_with_cap.
  split; [apply last_snoc_cap; done|].
  rewrite length_app. cbn [length].
  split; intros Hlen.
  - destruct (Nat.ltb_spec MAX_EVENTS (length q + 1)); [lia|reflexivity].
  - destruct (Nat.ltb_spec MAX_EVENTS (length q + 1)); [|lia].
    split.
    + rewrite slice_last_length, length_app. cbn [length]. lia.
    + exists (take (length (q ++ [e]) - floor) (q ++ [e])).
      symmetry. apply slice_last_suffix.
Qed.

Lemma capped_length (floor : nat) (q : list JsObj) (e : JsObj) :
  (floor ≤ MAX_EVENTS)%nat →
  (length (if (MAX_EVENTS <? length (q ++ [e]))%nat
           then slice_last floor (q ++ [e]) else q ++ [e]) ≤ MAX_EVENTS)%nat.
Proof.
  intros Hle. destruct (Nat.ltb_spec MAX_EVENTS (length (q ++ [e]))).
  - rewrite slice_last_length. lia.
  - done.
Qed.

(** ** The keydown collector and the key-event schema *)

(** Whatever is posted, a persisted key event has no field besides the
    time stamp [t]. *)
Lemma persisted_key_event_fields (env : Server.Env) (id : nat)
    (d : Server.DataToSave) (ev : JsObj) :
  ev ∈ Server.key_events (Server.document env id d) →
  ∀ k, k ∈ keys ev → k = "t".
Proof.
  cbn. intros Hev k Hk.
  apply list_elem_of_fmap in Hev as (o & -> & _).
  unfold keys, Schema.project in Hk.
  apply list_elem_of_fmap in Hk as ([k' v] & -> & Hin).
  apply list_elem_of_In, filter_In in Hin as [_ Hdecl].
  unfold Schema.declared in Hdecl. cbn in Hdecl.
  apply bool_decide_eq_true in Hdecl.
  apply list_elem_of_singleton in Hdecl. exact Hdecl.
Qed.

(** The event pushed by the keydown listener is the last of the queue. *)
Lemma on_keydown_last (now : Z) (e : KeyboardEvent) (s : State) :
  last (key_events (behaviorData (on_keydown now e s))) = Some (key_event now e).
Proof.
  unfold on_keydown, set_data. cbn [behaviorData key_events].
  apply last_snoc_cap. lia.
Qed.

(** C1 (evaluation at the failing input). Pressing the key A (key code 65)
    with no modifier makes the keydown listener queue an event whose field
    [keyCode] is 65: a field outside the time stamp, the modifier flags and
    the location, and one that tells the key A from the key B. *)
Theorem keydown_queues_key_code :
  key_events (behaviorData (on_keydown 5000 key_a (init boot0)))
  = [ [ ("t", JNum 5000); ("keyCode", JNum 65); ("location", JNum 0);
        ("ctrl", JBool false); ("shift", JBool false); ("alt", JBool false);
        ("meta", JBool false) ] ]
  ∧ get "keyCode" (key_event 5000 key_a) = Some (JNum 65)
  ∧ ¬ (∀ k, k ∈ keys (key_event 5000 key_a) → k ∈ timing_fields)
  ∧ key_event 5000 key_a ≠ key_event 5000 key_b.
Proof.
  split; [reflexivity|]. split; [reflexivity|]. split.
  - intros Hall. specialize (Hall "keyCode").
    assert (Hin : "keyCode" ∈ keys (key_event 5000 key_a)).
    { cbn. apply list_elem_of_In. cbn. tauto. }
    apply Hall, list_elem_of_In in Hin. cbn in Hin.
    repeat destruct Hin as [Hin|Hin]; try discriminate Hin; exact Hin.
  - discriminate.
Qed.

(** ** The transmitter *)

Lemma all_empty_no_events (b : BehaviorData) :
  all_empty b = true ↔ no_events b.
Proof.
  unfold all_empty, no_events. rewrite !andb_true_iff, !Nat.eqb_eq.
  destruct (mouse_events b), (click_events b), (scroll_events b),
    (key_events b); cbn; intuition discriminate.
Qed.

Lemma try_send_completes (tr : Transport) (d : Payload) :
  snd (try_send tr d) = completes tr.
Proof.
  unfold try_send, try_fetch, completes.
  destruct (sendBeacon tr) as [[[|]|]|], (fetch tr) as [[[|]|]|]; reflexivity.
Qed.

(** What the [try] block does first: it calls the beacon when the host has
    one, else [fetch] when the host has it, and nothing otherwise. *)
Lemma try_send_first (tr : Transport) (d : Payload) :
  (sendBeacon tr ≠ None →
   ∃ rest, fst (try_send tr d) = BeaconCall API_ENDPOINT d :: rest)
  ∧ (sendBeacon tr = None → fetch tr ≠ None →
     ∃ rest, fst (try_send tr d) = FetchCall API_ENDPOINT d :: rest)
  ∧ (sendBeacon tr = None → fetch tr = None → try_send tr d = ([], false)).
Proof.
  unfold try_send, try_fetch.
  destruct (sendBeacon tr) as [[[|]|]|], (fetch tr) as [[[|]|]|]; cbn;
    (split; [intros H; try (exfalso; apply H; reflexivity); eauto|]);
    (split; [intros H H'; try discriminate H;
             try (exfalso; apply H'; reflexivity); eauto|]);
    intros H H'; try discriminate H; try discriminate H'; reflexivity.
Qed.

Lemma try_send_attempt (tr : Transport) (d : Payload) :
  has_primitive tr →
  ∃ x rest, delivers d x ∧ fst (try_send tr d) = x :: rest.
Proof.
  intros Hp. destruct (try_send_first tr d) as (Hb & Hf & _).
  destruct (sendBeacon tr) as [b|] eqn:Hsb.
  - destruct (Hb ltac:(discriminate)) as [rest Hr].
    exists (BeaconCall API_ENDPOINT d), rest. split; [left; reflexivity | exact Hr].
  - destruct Hp as [Hp|Hp]; [contradiction|].
    destruct (Hf eq_refl Hp) as [rest Hr].
    exists (FetchCall API_ENDPOINT d), rest. split; [right; reflexivity | exact Hr].
Qed.

Lemma try_send_acts (tr : Transport) (d : Payload) :
  snd (try_send tr d) = true → fst (try_send tr d) ≠ [].
Proof.
  unfold try_send, try_fetch.
  destruct (sendBeacon tr) as [[[|]|]|], (fetch tr) as [[[|]|]|]; cbn;
    intros H; discriminate.
Qed.

Lemma sendData_skip (now : Z) (p : Page) (tr : Transport) (s : State) :
  all_empty (behaviorData s) = true → sendData now p tr s = s.
Proof. intros H. unfold sendData. rewrite H. reflexivity. Qed.

Lemma sendData_effects (now : Z) (p : Page) (tr : Transport) (s : State) :
  all_empty (behaviorData s) = false →
  ∃ rest,
    effects (sendData now p tr s)
    = effects s ++ fst (try_send tr (dataToSend now p (behaviorData s))) ++ rest.
Proof.
  intros H. unfold sendData. rewrite H.
  destruct (try_send tr _) as [fx [|]]; cbn.
  - exists []. rewrite app_nil_r. reflexivity.
  - exists [warn_send]. reflexivity.
Qed.

(** A flush that is not skipped adds to the log (a network call, or at
    least the warning of the [catch] block). *)
Lemma sendData_effects_grow (now : Z) (p : Page) (tr : Transport) (s : State) :
  all_empty (behaviorData s) = false →
  effects (sendData now p tr s) ≠ effects s.
Proof.
  intros He Heq. unfold sendData in Heq. rewrite He in Heq.
  pose proof (try_send_acts tr (dataToSend now p (behaviorData s))) as Hacts.
  destruct (try_send tr _) as [fx [|]]; cbn in Heq, Hacts;
    apply (f_equal length) in Heq; rewrite !length_app in Heq.
  - destruct fx; [apply Hacts; reflexivity | cbn in Heq; lia].
  - cbn in Heq. lia.
Qed.

(** On a host with a primitive, a flush that is not skipped first hands
    the payload to it. *)
Lemma sendData_attempt (now : Z) (p : Page) (tr : Transport) (s : State) :
  all_empty (behaviorData s) = false → has_primitive tr →
  ∃ x rest,
    delivers (dataToSend now p (behaviorData s)) x
    ∧ effects (sendData now p tr s) = effects s ++ x :: rest.
Proof.
  intros He Hp. destruct (sendData_effects now p tr s He) as [rest Hfx].
  destruct (try_send_attempt tr (dataToSend now p (behaviorData s)) Hp)
    as (x & rest' & Hx & Hcall).
  exists x, (rest' ++ rest). split; [exact Hx|].
  rewrite Hfx, Hcall. reflexivity.
Qed.

(** On a host with neither primitive, a flush that is not skipped calls
    nothing: it logs the warning of the [catch] block and leaves the buffer
    as it was. *)
Lemma sendData_no_primitive (now : Z) (p : Page) (tr : Transport) (s : State) :
  all_empty (behaviorData s) = false →
  sendBeacon tr = None → fetch tr = None →
  effects (sendData now p tr s) = effects s ++ [warn_send]
  ∧ behaviorData (sendData now p tr s) = behaviorData s.
Proof.
  intros He Hb Hf. unfold sendData. rewrite He.
  destruct (try_send_first tr (dataToSend now p (behaviorData s)))
    as (_ & _ & Hnone).
  rewrite (Hnone Hb Hf). split; reflexivity.
Qed.

(** C2 (counterexample). Right after initialisation the page-view queue
    holds the initial page view and the four event queues are empty: a
    flush then leaves the state as it is and calls no network primitive,
    although one of the five queues is not empty. *)
Lemma flush_skips_page_views_only :
  page_views (behaviorData (init boot0)) ≠ []
  ∧ sendData 9000 page0 beacon_ok (init boot0) = init boot0
  ∧ effects (sendData 9000 page0 beacon_ok (init boot0)) = [].
Proof. repeat split; discriminate. Qed.

(** C2 (amended). A flush leaves the state untouched, doing nothing,
    exactly when the mouse, click, scroll and key queues are all empty (the
    page-view queue is not consulted). When one of these four is not empty,
    the flush builds a payload with the session id, the session start, the
    content of all five queues, the fingerprint, the page URL and the send
    time, and its first action is to hand that payload to [sendBeacon] when
    the host has it, else to [fetch] when the host has it; on a host with
    neither primitive nothing is handed to the network: the flush only logs
    a warning and leaves the buffer as it was. *)
Theorem flush_skips_iff_no_events
    (now : Z) (p : Page) (tr : Transport) (s : State) :
  (sendData now p tr s = s ↔ no_events (behaviorData s))
  ∧ (effects (sendData now p tr s) = effects s ↔ no_events (behaviorData s))
  ∧ (¬ no_events (behaviorData s) →
     ∃ d,
       snapshot_of now p (behaviorData s) d
       ∧ (sendBeacon tr ≠ None →
          ∃ rest, effects (sendData now p tr s)
                  = effects s ++ BeaconCall API_ENDPOINT d :: rest)
       ∧ (sendBeacon tr = None → fetch tr ≠ None →
          ∃ rest, effects (sendData now p tr s)
                  = effects s ++ FetchCall API_ENDPOINT d :: rest)
       ∧ (sendBeacon tr = None → fetch tr = None →
          effects (sendData now p tr s) = effects s ++ [warn_send]
          ∧ behaviorData (sendData now p tr s) = behaviorData s)).
Proof.
  rewrite <- all_empty_no_events.
  destruct (all_empty (behaviorData s)) eqn:He.
  - rewrite (sendData_skip _ _ _ _ He).
    split; [tauto|]. split; [tauto|]. intros Hne. exfalso. apply Hne. reflexivity.
  - pose proof (sendData_effects_grow now p tr s He) as Hgrow.
    split; [|split].
    + split; [|discriminate]. intros Heq. exfalso. apply Hgrow.
      rewrite Heq. reflexivity.
    + split; [|discriminate]. intros Heq. exfalso. exact (Hgrow Heq).
    + intros _. exists (dataToSend now p (behaviorData s)).
      split; [repeat split|].
      destruct (sendData_effects now p tr s He) as [rest Hfx].
      destruct (try_send_first tr (dataToSend now p (behaviorData s)))
        as (Hb & Hf & _).
      split; [|split].
      * intros H. destruct (Hb H) as [rest' Hr]. exists (rest' ++ rest).
        rewrite Hfx, Hr. reflexivity.
      * intros H H'. destruct (Hf H H') as [rest' Hr]. exists (rest' ++ rest).
        rewrite Hfx, Hr. reflexivity.
      * intros H H'. apply sendData_no_primitive; assumption.
Qed.

(** C2 (witness): a flush with one key event queued hands the payload to
    the beacon. *)
Lemma flush_skips_iff_no_events_witness :
  ∃ d rest,
    snapshot_of 9000 page0
      (behaviorData (on_keydown 5000 key_a (init boot0))) d
    ∧ effects (sendData 9000 page0 beacon_ok
                 (on_keydown 5000 key_a (init boot0)))
      = effects (on_keydown 5000 key_a (init boot0))
        ++ BeaconCall API_ENDPOINT d :: rest.
Proof.
  destruct (flush_skips_iff_no_events 9000 page0 beacon_ok
              (on_keydown 5000 key_a (init boot0))) as (_ & _ & H).
  destruct H as (d & Hsnap & Hbeacon & _).
  { unfold no_events. cbn. intros (_ & _ & _ & H). discriminate H. }
  destruct Hbeacon as [rest Hrest]; [discriminate|].
  exists d, rest. split; [exact Hsnap | exact Hrest].
Defined.

(** A flush that goes ahead and whose network calls return trims the
    buffer with [clear_sent]. *)
Lemma sendData_completes (now : Z) (p : Page) (tr : Transport) (s : State) :
  all_empty (behaviorData s) = false → completes tr = true →
  behaviorData (sendData now p tr s) = clear_sent (behaviorData s).
Proof.
  intros He Hc. unfold sendData. rewrite He.
  pose proof (try_send_completes tr (dataToSend now p (behaviorData s))) as Hs.
  destruct (try_send tr _) as [fx ok]. cbn in Hs. rewrite Hc in Hs.
  subst ok. reflexivity.
Qed.

(** When a network primitive throws, the [catch] block leaves the buffer
    as it was. *)
Lemma sendData_throws (now : Z) (p : Page) (tr : Transport) (s : State) :
  completes tr = false →
  behaviorData (sendData now p tr s) = behaviorData s.
Proof.
  intros Hc. unfold sendData.
  destruct (all_empty (behaviorData s)); [reflexivity|].
  pose proof (try_send_completes tr (dataToSend now p (behaviorData s))) as Hs.
  destruct (try_send tr _) as [fx ok]. cbn in Hs. rewrite Hc in Hs.
  subst ok. reflexivity.
Qed.

(** C3 (counterexample). In a host with neither [sendBeacon] nor [fetch],
    a flush of a buffer holding sixty mouse events is not skipped, its
    delivery attempt fails (the reference to [fetch] raises), and the mouse
    queue still holds sixty events afterwards, more than the floor of 50. *)
Lemma flush_keeps_queue_when_send_throws :
  all_empty (behaviorData (run boot0 sixty_moves)) = false
  ∧ length (mouse_events
              (behaviorData
                 (sendData 9000 page0 no_transport (run boot0 sixty_moves))))
    = 60%nat
  ∧ ¬ (length (mouse_events
                 (behaviorData
                    (sendData 9000 page0 no_transport (run boot0 sixty_moves))))
       ≤ 50)%nat.
Proof.
  assert (H : length (mouse_events
                        (behaviorData
                           (sendData 9000 page0 no_transport
                              (run boot0 sixty_moves)))) = 60%nat)
    by (vm_compute; reflexivity).
  split; [vm_compute; reflexivity|]. split; [exact H|]. rewrite H. lia.
Qed.

(** C3 (amended). After a flush that is not skipped and whose network
    calls return (beacon accepted, or beacon refused or missing and the
    fallback request started, whether or not it later succeeds), each of
    the mouse, click, scroll and key queues holds exactly its most recent
    elements, at most 50, 20, 10 and 30 of them. (When a network call
    throws, the buffer is left as it was.) *)
Theorem flush_trims_to_floor
    (now : Z) (p : Page) (tr : Transport) (s : State) :
  ¬ no_events (behaviorData s) →
  completes tr = true →
  let b := behaviorData s in
  let b' := behaviorData (sendData now p tr s) in
  most_recent_of 50 (mouse_events b) (mouse_events b')
  ∧ most_recent_of 20 (click_events b) (click_events b')
  ∧ most_recent_of 10 (scroll_events b) (scroll_events b')
  ∧ most_recent_of 30 (key_events b) (key_events b').
Proof.
  intros Hne Hc b b'. subst b b'.
  rewrite sendData_completes; [|
    destruct (all_empty (behaviorData s)) eqn:He;
      [exfalso; apply Hne, all_empty_no_events, He | reflexivity] | exact Hc].
  cbn [clear_sent mouse_events click_events scroll_events key_events].
  repeat split; try apply most_recent_of_slice;
    try (rewrite slice_last_length; lia);
    eexists; symmetry; apply slice_last_suffix.
Qed.

(** C3 (witness): sixty mouse events, beacon refused and fallback request
    failing later. *)
Lemma flush_trims_to_floor_witness :
  most_recent_of 50
    (mouse_events (behaviorData (run boot0 sixty_moves)))
    (mouse_events
       (behaviorData
          (sendData 9000 page0 beacon_refused (run boot0 sixty_moves)))).
Proof.
  apply (flush_trims_to_floor 9000 page0 beacon_refused (run boot0 sixty_moves)).
  - unfold no_events. intros [H _]. vm_compute in H. discriminate H.
  - reflexivity.
Defined.

(** C10. A flush, skipped or not and whatever the network primitives do,
    leaves the session id, the session start, the fingerprint and the
    page-view queue of the buffer unchanged. *)
Theorem flush_frame (now : Z) (p : Page) (tr : Transport) (s : State) :
  session_id (behaviorData (sendData now p tr s)) = session_id (behaviorData s)
  ∧ session_start (behaviorData (sendData now p tr s))
    = session_start (behaviorData s)
  ∧ fingerprint (behaviorData (sendData now p tr s))
    = fingerprint (behaviorData s)
  ∧ page_views (behaviorData (sendData now p tr s))
    = page_views (behaviorData s).
Proof.
  unfold sendData.
  destruct (all_empty (behaviorData s)); [tauto|].
  destruct (try_send tr _) as [fx [|]]; cbn; tauto.
Qed.

(** ** Invariants of the collector *)

Lemma run_invariant (P : State → Prop) (bt : Boot) (inputs : list Input) :
  P (init bt) → (∀ s i, P s → P (step s i)) → P (run bt inputs).
Proof.
  intros Hinit Hstep. unfold run. generalize (init bt) Hinit.
  induction inputs as [|i inputs IH]; intros s Hs; cbn [fold_left].
  - exact Hs.
  - apply IH, Hstep, Hs.
Qed.

Lemma clear_sent_within_cap (b : BehaviorData) :
  within_cap b → within_cap (clear_sent b).
Proof.
  unfold within_cap, clear_sent, MAX_EVENTS.
  cbn [mouse_events click_events scroll_events key_events].
  rewrite !slice_last_length. lia.
Qed.

Lemma sendData_within_cap (now : Z) (p : Page) (tr : Transport) (s : State) :
  within_cap (behaviorData s) → within_cap (behaviorData (sendData now p tr s)).
Proof.
  intros H. unfold sendData.
  destruct (all_empty (behaviorData s)); [exact H|].
  destruct (try_send tr _) as [fx [|]]; cbn [behaviorData];
    [apply clear_sent_within_cap|]; exact H.
Qed.

Lemma step_within_cap (s : State) (i : Input) :
  within_cap (behaviorData s) → within_cap (behaviorData (step s i)).
Proof.
  intros H. pose proof H as (Hm & Hc & Hs & Hk).
  destruct i; cbn [step].
  - unfold on_mousemove. destruct (50 <? now - lastMouseTime s); [|exact H].
    unfold within_cap.
    cbn [behaviorData mouse_events click_events scroll_events key_events].
    split; [apply capped_length; unfold MAX_EVENTS; lia | tauto].
  - unfold on_click, set_data, within_cap.
    cbn [behaviorData mouse_events click_events scroll_events key_events].
    split; [exact Hm|].
    split; [apply capped_length; unfold MAX_EVENTS; lia | tauto].
  - exact H.
  - unfold on_scroll_timeout. destruct (scrollTimeout s); [|exact H].
    unfold within_cap.
    cbn [behaviorData mouse_events click_events scroll_events key_events].
    split; [exact Hm|]. split; [exact Hc|].
    split; [apply capped_length; unfold MAX_EVENTS; lia | exact Hk].
  - unfold on_keydown, set_data, within_cap.
    cbn [behaviorData mouse_events click_events scroll_events key_events].
    split; [exact Hm|]. split; [exact Hc|]. split; [exact Hs|].
    apply capped_length; unfold MAX_EVENTS; lia.
  - exact H.
  - exact H.
  - exact H.
  - apply sendData_within_cap, H.
  - apply sendData_within_cap, H.
  - unfold on_visibilitychange. destruct visible; exact H.
Qed.

(** C4 (counterexample). After a thousand and one [history.pushState]
    calls the page-view queue holds 1002 entries: it is longer than
    MAX_EVENTS, no append having cut it. *)
Lemma page_views_exceed_cap :
  length (page_views (behaviorData (run boot0 many_pushes))) = 1002%nat
  ∧ ¬ (length (page_views (behaviorData (run boot0 many_pushes)))
       ≤ MAX_EVENTS)%nat.
Proof.
  assert (H : length (page_views (behaviorData (run boot0 many_pushes)))
              = 1002%nat) by (vm_compute; reflexivity).
  split; [exact H|]. rewrite H. unfold MAX_EVENTS. lia.
Qed.

(** C4 (amended). In every state that the script reaches, each of the
    mouse, click, scroll and key queues holds at most MAX_EVENTS (1000)
    events. Each append to one of them puts the new event at the tail and,
    when the queue then exceeds MAX_EVENTS, keeps only the most recent 500
    (mouse), 200 (click), 100 (scroll) or 300 (key) events. (The page-view
    queue is appended to without a cap.) *)
Theorem event_queues_capped (bt : Boot) (inputs : list Input) :
  let s := run bt inputs in
  let b := behaviorData s in
  within_cap b
  ∧ (∀ now e, mouse_events (behaviorData (on_mousemove now e s)) = mouse_events b
              ∨ appended_with_cap 500 (mouse_events b) (mouse_event now e)
                  (mouse_events (behaviorData (on_mousemove now e s))))
  ∧ (∀ now e, appended_with_cap 200 (click_events b) (click_event now e)
                (click_events (behaviorData (on_click now e s))))
  ∧ (∀ now w, scroll_events (behaviorData (on_scroll_timeout now w s))
              = scroll_events b
              ∨ appended_with_cap 100 (scroll_events b) (scroll_event now w)
                  (scroll_events (behaviorData (on_scroll_timeout now w s))))
  ∧ (∀ now e, appended_with_cap 300 (key_events b) (key_event now e)
                (key_events (behaviorData (on_keydown now e s))))
  ∧ (∀ type now p, page_views (behaviorData (triggerPageView type now p s))
                   = page_views b ++ [page_view now p type]).
Proof.
  intros s b. split.
  - subst b s. apply (run_invariant (fun s => within_cap (behaviorData s))).
    + unfold within_cap, MAX_EVENTS. cbn. lia.
    + apply step_within_cap.
  - subst b. generalize s. clear s. intros s.
    split; [|split; [|split; [|split]]].
    + intros now e. unfold on_mousemove.
      destruct (50 <? now - lastMouseTime s); [right|left; reflexivity].
      cbn [behaviorData mouse_events].
      apply appended_with_cap_push. unfold MAX_EVENTS. lia.
    + intros now e. unfold on_click, set_data. cbn [behaviorData click_events].
      apply appended_with_cap_push. unfold MAX_EVENTS. lia.
    + intros now w. unfold on_scroll_timeout.
      destruct (scrollTimeout s); [right|left; reflexivity].
      cbn [behaviorData scroll_events].
      apply appended_with_cap_push. unfold MAX_EVENTS. lia.
    + intros now e. unfold on_keydown, set_data. cbn [behaviorData key_events].
      apply appended_with_cap_push. unfold MAX_EVENTS. lia.
    + reflexivity.
Qed.

(** ** The mouse throttle *)

Lemma spaced_weaken (g g' : Z) (q : list JsObj) :
  g' ≤ g → spaced g q → spaced g' q.
Proof. intros Hle Hq i a b Ha Hb. specialize (Hq i a b Ha Hb). lia. Qed.

Lemma spaced_slice_last (g : Z) (n : nat) (q : list JsObj) :
  spaced g q → spaced g (slice_last n q).
Proof.
  intros Hq i a b. rewrite !slice_last_lookup.
  replace (length q - n + S i)%nat with (S (length q - n + i)) by lia.
  apply Hq.
Qed.

Lemma spaced_snoc (g : Z) (q : list JsObj) (e : JsObj) :
  spaced g q →
  (∀ a, last q = Some a → g ≤ t_of e - t_of a) →
  spaced g (q ++ [e]).
Proof.
  intros Hq Hlast i a b Ha Hb.
  pose proof (lookup_lt_Some _ _ _ Hb) as Hlt.
  rewrite length_app in Hlt. cbn [length] in Hlt.
  destruct (decide (S i < length q)%nat) as [Hin|Hout].
  - rewrite lookup_app_l in Ha by lia. rewrite lookup_app_l in Hb by lia.
    exact (Hq i a b Ha Hb).
  - assert (Hi : S i = length q) by lia.
    rewrite lookup_app_l in Ha by lia.
    rewrite lookup_app_r in Hb by lia.
    replace (S i - length q)%nat with 0%nat in Hb by lia.
    cbn in Hb. injection Hb as <-.
    apply Hlast. rewrite last_lookup, <- Hi. exact Ha.
Qed.

Lemma t_of_mouse_event (now : Z) (e : PointerMove) :
  t_of (mouse_event now e) = now.
Proof. reflexivity. Qed.

Lemma on_mousemove_throttled (now : Z) (e : PointerMove) (s : State) :
  throttled s → throttled (on_mousemove now e s).
Proof.
  intros [Hsp Hlast]. unfold on_mousemove.
  destruct (Z.ltb_spec 50 (now - lastMouseTime s)) as [Hgap|_];
    [|split; assumption].
  assert (Hq : spaced 51 (mouse_events (behaviorData s) ++ [mouse_event now e])).
  { apply spaced_snoc; [exact Hsp|].
    intros a Ha. rewrite (Hlast a Ha), t_of_mouse_event. lia. }
  unfold throttled. cbn [behaviorData mouse_events lastMouseTime]. split.
  - destruct (MAX_EVENTS <? _)%nat; [apply spaced_slice_last|]; exact Hq.
  - intros ev Hev. rewrite last_snoc_cap in Hev by lia.
    injection Hev as <-. reflexivity.
Qed.

Lemma sendData_throttled (now : Z) (p : Page) (tr : Transport) (s : State) :
  throttled s → throttled (sendData now p tr s).
Proof.
  intros [Hsp Hlast]. unfold sendData.
  destruct (all_empty (behaviorData s)); [split; assumption|].
  destruct (try_send tr _) as [fx [|]]; [|split; assumption].
  unfold throttled, clear_sent. cbn [behaviorData mouse_events lastMouseTime].
  split; [apply spaced_slice_last, Hsp|].
  intros ev. rewrite slice_last_last by lia. apply Hlast.
Qed.

Lemma step_throttled (s : State) (i : Input) :
  throttled s → throttled (step s i).
Proof.
  intros H. destruct i; cbn [step].
  - apply on_mousemove_throttled, H.
  - exact H.
  - exact H.
  - unfold on_scroll_timeout. destruct (scrollTimeout s); exact H.
  - exact H.
  - exact H.
  - exact H.
  - exact H.
  - apply sendData_throttled, H.
  - apply sendData_throttled. exact H.
  - unfold on_visibilitychange. destruct visible; exact H.
Qed.

Lemma run_throttled (bt : Boot) (inputs : list Input) :
  throttled (run bt inputs).
Proof.
  apply run_invariant.
  - split; [intros i a b Ha; discriminate Ha | intros ev Hev; discriminate Hev].
  - apply step_throttled.
Qed.

(** C5. In every state that the script reaches: two consecutive events of
    the mouse queue have time stamps at least 50 ms apart; the time kept in
    [lastMouseTime] is that of the most recently queued mouse event; and a
    mouse move changes the queue only if at least 50 ms have elapsed since
    then, in which case the new event, stamped with the current time, is
    the last of the queue. *)
Theorem mouse_events_spaced (bt : Boot) (inputs : list Input) :
  let s := run bt inputs in
  spaced 50 (mouse_events (behaviorData s))
  ∧ (∀ ev, last (mouse_events (behaviorData s)) = Some ev →
           t_of ev = lastMouseTime s)
  ∧ (∀ now e,
       mouse_events (behaviorData (on_mousemove now e s))
       ≠ mouse_events (behaviorData s) →
       50 ≤ now - lastMouseTime s
       ∧ last (mouse_events (behaviorData (on_mousemove now e s)))
         = Some (mouse_event now e)
       ∧ t_of (mouse_event now e) = now).
Proof.
  intros s. destruct (run_throttled bt inputs) as [Hsp Hlast]. fold s in Hsp, Hlast.
  split; [apply (spaced_weaken 51); [lia | exact Hsp]|].
  split; [exact Hlast|].
  intros now e. unfold on_mousemove.
  destruct (Z.ltb_spec 50 (now - lastMouseTime s)) as [Hgap|_].
  - intros _. split; [lia|]. split; [|reflexivity].
    cbn [behaviorData mouse_events]. apply last_snoc_cap. lia.
  - intros Hne. exfalso. apply Hne. reflexivity.
Qed.

(** ** Ingestion *)

Lemma create_ok (env : Server.Env) (d : Server.DataToSave) (db : Server.Db) :
  Server.validate d = None → Server.fault env = None →
  Server.create env d db
  = (inr (Server.document env (length db) d),
     db ++ [Server.document env (length db) d]).
Proof. intros Hv Hf. unfold Server.create. rewrite Hv, Hf. reflexivity. Qed.

Lemma create_error (env : Server.Env) (d : Server.DataToSave) (db : Server.Db) :
  Server.validate d ≠ None ∨ Server.fault env ≠ None →
  ∃ msg, Server.create env d db = (inl msg, db).
Proof.
  intros H. unfold Server.create.
  destruct (Server.validate d) as [msg|]; [eauto|].
  destruct (Server.fault env) as [msg|]; [eauto|].
  destruct H as [H|H]; congruence.
Qed.

(** C6. For every request to the collect handler. If the body has no
    session id, or an empty one, the answer is 400 and the collection is
    unchanged. Otherwise the object handed to the store carries the
    caller's address and user agent, and: when the store accepts it,
    exactly one document, so stamped, is added at the end of the collection
    and the answer is 200 with the session id and the identifier of the new
    document; when the store rejects it (a store failure, or the required
    session start missing), the answer is 500 with the message
    Internal server error, the detail being sent only outside production,
    and the collection is unchanged. *)
Theorem collect_behavior_outcomes
    (env : Server.Env) (req : Server.Request) (db : Server.Db) :
  let b := Server.body req in
  (Server.Body.session_id b = None ∨ Server.Body.session_id b = Some "" →
   Server.collectBehavior env req db
   = (Server.Status400 "session_id is required", db))
  ∧ (∀ sid, Server.Body.session_id b = Some sid → sid ≠ "" →
     (Server.fault env = None → Server.Body.session_start b ≠ None →
      ∃ saved,
        Server.collectBehavior env req db
        = (Server.Status200
             (Server.mkCollected "Behavior data collected successfully"
                sid (Server._id saved)),
           db ++ [saved])
        ∧ Server.session_id saved = sid
        ∧ Server.ip_address saved
          = opt_str_or (Server.ip req) (Server.remoteAddress req)
        ∧ Server.user_agent saved = Server.userAgent req
        ∧ Server._id saved = length db)
     ∧ (Server.fault env ≠ None ∨ Server.Body.session_start b = None →
        ∃ detail,
          Server.collectBehavior env req db
          = (Server.Status500 "Internal server error"
               (if Server.production env then None else Some detail),
             db))).
Proof.
  intros b. subst b. split.
  - intros H. unfold Server.collectBehavior, Server.no_session_id.
    destruct H as [-> | ->]; reflexivity.
  - intros sid Hsid Hne.
    assert (Hno : Server.no_session_id (Server.body req) = false).
    { unfold Server.no_session_id. rewrite Hsid.
      apply String.eqb_neq, Hne. }
    assert (Hval : ∀ ip ua,
               Server.validate (Server.mkDataToSave (Server.body req) ip ua)
               = match Server.Body.session_start (Server.body req) with
                 | None => Some "BehaviorData validation failed: session_start: Path `session_start` is required."
                 | Some _ => None
                 end).
    { intros ip ua. unfold Server.validate. cbn [Server.fields].
      rewrite Hsid. apply String.eqb_neq in Hne. rewrite Hne. reflexivity. }
    unfold Server.collectBehavior. rewrite Hno. split.
    + intros Hf Hstart.
      rewrite create_ok; [| | exact Hf].
      * eexists. split; [|split; [|split; [|split]]].
        -- rewrite Hsid. reflexivity.
        -- cbn. rewrite Hsid. reflexivity.
        -- reflexivity.
        -- reflexivity.
        -- reflexivity.
      * rewrite Hval. destruct (Server.Body.session_start _); congruence.
    + intros Hbad.
      destruct (create_error env
                  (Server.mkDataToSave (Server.body req)
                     (opt_str_or (Server.ip req) (Server.remoteAddress req))
                     (Server.userAgent req)) db) as [msg Hc].
      { rewrite Hval. destruct Hbad as [Hf | ->]; [right; exact Hf | left; discriminate]. }
      rewrite Hc. exists msg. reflexivity.
Qed.

(** A post with an empty body is refused and stores nothing. *)
Example collect_empty_body :
  Server.collectBehavior ServerSamples.env0
    (ServerSamples.post_request ServerSamples.body_empty) []
  = (Server.Status400 "session_id is required", []).
Proof. reflexivity. Qed.

(** The same post sent twice stores two documents of the session, under
    two identifiers. *)
Example collect_twice :
  let req := ServerSamples.post_request ServerSamples.body_s1 in
  let '(r1, db1) := Server.collectBehavior ServerSamples.env0 req [] in
  let '(r2, db2) := Server.collectBehavior ServerSamples.env0 req db1 in
  r1 = Server.Status200
         (Server.mkCollected "Behavior data collected successfully" "s1" 0%nat)
  ∧ r2 = Server.Status200
           (Server.mkCollected "Behavior data collected successfully" "s1" 1%nat)
  ∧ map Server.session_id db2 = ["s1"; "s1"]
  ∧ map Server._id db2 = [0%nat; 1%nat]
  ∧ map Server.key_events db2 = [[[("t", JNum 5000)]]; [[("t", JNum 5000)]]].
Proof. vm_compute. repeat split. Qed.

(** A store failure is reported as a generic 500; the detail is sent only
    outside production. *)
Example collect_store_down :
  Server.collectBehavior ServerSamples.env_down
    (ServerSamples.post_request ServerSamples.body_s1) []
  = (Server.Status500 "Internal server error" None, [])
  ∧ Server.collectBehavior ServerSamples.env_dev_down
      (ServerSamples.post_request ServerSamples.body_s1) []
    = (Server.Status500 "Internal server error" (Some "connection lost"), []).
Proof. split; reflexivity. Qed.

(** ** Paginated retrieval *)

(** [parseInt] on some query parameters. *)
Example parseInt_samples :
  parseInt (Some "2") = Some 2
  ∧ parseInt (Some " 12abc") = Some 12
  ∧ parseInt (Some "-7") = Some (-7)
  ∧ parseInt (Some "0x1f") = Some 31
  ∧ parseInt (Some "abc") = None
  ∧ parseInt (Some "") = None
  ∧ parseInt None = None.
Proof. repeat split. Qed.

(** An absent, unreadable or zero parameter takes the default. *)
Example num_or_samples :
  num_or (parseInt None) 50 = 50
  ∧ num_or (parseInt (Some "abc")) 50 = 50
  ∧ num_or (parseInt (Some "0")) 50 = 50
  ∧ num_or (parseInt (Some "20")) 50 = 20
  ∧ num_or (parseInt (Some "-1")) 1 = -1.
Proof. repeat split. Qed.

Lemma Math_ceil_div_pos (a b : Z) :
  0 < b → Math_ceil_div a b = - ((- a) / b).
Proof.
  intros Hb. destruct b as [|p|p]; try lia.
  unfold Math_ceil_div, Qceiling, Qfloor. cbn.
  rewrite Z.mul_1_r. reflexivity.
Qed.

Lemma Math_ceil_div_is_ceiling (a b : Z) :
  0 < b → ServerProps.is_ceiling (Math_ceil_div a b) a b.
Proof.
  intros Hb. rewrite Math_ceil_div_pos by exact Hb.
  unfold ServerProps.is_ceiling.
  pose proof (Z.div_mod (- a) b ltac:(lia)) as Hdm.
  pose proof (Z.mod_pos_bound (- a) b Hb) as Hmod.
  nia.
Qed.

Lemma matches_selected (sessionId : option string) (d : Server.BehaviorData) :
  Server.matches sessionId d = true ↔ ServerProps.selected sessionId d.
Proof.
  unfold Server.matches, ServerProps.selected.
  destruct sessionId as [sid|]; [|tauto].
  destruct (String.eqb_spec sid "") as [->|Hne].
  - split; [intros _ H; contradiction | reflexivity].
  - rewrite String.eqb_eq. tauto.
Qed.

Lemma find_page_ok (sessionId : option string) (skip limit : Z)
    (db : Server.Db) :
  0 ≤ skip → 0 < limit →
  Server.find_page sessionId skip limit db
  = inr (take (Z.to_nat limit)
           (drop (Z.to_nat skip)
              (Server.sort_collected_desc
                 (List.filter (Server.matches sessionId) db)))).
Proof.
  intros Hs Hl. unfold Server.find_page, Server.find_limit.
  destruct (Z.ltb_spec skip 0); [lia|].
  destruct (Z.eqb_spec limit 0); [lia|].
  rewrite Z.abs_eq by lia. reflexivity.
Qed.

(** C7. For a request served without a store failure whose page and limit
    (after defaulting: page 1 when absent, limit 50 when absent) are at
    least 1, the answer is 200 and: its records are the window of at most
    [limit] records that follows the first (page-1)*limit ones in a list
    that holds exactly the stored documents selected by the optional
    session id (exact match) ordered by [collected_at] descending; the
    metadata give the page, the number of matching records, their ceiling
    quotient by the limit as number of pages, hasNext = (page < pages) and
    hasPrev = (page > 1). *)
Theorem behavior_data_page
    (env : Server.Env) (req : Server.Request) (db : Server.Db) :
  let q := Server.query req in
  let page := num_or (parseInt (Server.Query.page q)) 1 in
  let limit := num_or (parseInt (Server.Query.limit q)) 50 in
  Server.fault env = None → 1 ≤ page → 1 ≤ limit →
  (Server.Query.page q = None → page = 1)
  ∧ (Server.Query.limit q = None → limit = 50)
  ∧ ∃ ordered pg,
      Server.getBehaviorData env req db
      = Server.Status200
          (Server.mkBehaviorPage
             (take (Z.to_nat limit)
                (drop (Z.to_nat ((page - 1) * limit)) ordered))
             pg)
      ∧ ordered ≡ₚ List.filter (Server.matches (Server.Query.session_id q)) db
      ∧ (∀ d, d ∈ ordered
              ↔ d ∈ db ∧ ServerProps.selected (Server.Query.session_id q) d)
      ∧ StronglySorted Server.newer_first ordered
      ∧ Z.of_nat
          (length (take (Z.to_nat limit)
                     (drop (Z.to_nat ((page - 1) * limit)) ordered))) ≤ limit
      ∧ Server.current pg = page
      ∧ Server.totalRecords pg = length ordered
      ∧ ServerProps.is_ceiling (Server.total pg)
          (Z.of_nat (Server.totalRecords pg)) limit
      ∧ Server.hasNext pg = bool_decide (page < Server.total pg)
      ∧ Server.hasPrev pg = bool_decide (page > 1).
Proof.
  intros q page limit Hf Hp Hl.
  split; [intros Hq; subst page; rewrite Hq; reflexivity|].
  split; [intros Hq; subst limit; rewrite Hq; reflexivity|].
  set (sid := Server.Query.session_id q).
  exists (Server.sort_collected_desc (List.filter (Server.matches sid) db)).
  eexists. split.
  { unfold Server.getBehaviorData. rewrite Hf.
    fold q. fold page limit. fold sid.
    rewrite find_page_ok by nia. reflexivity. }
  assert (Hperm : Server.sort_collected_desc (List.filter (Server.matches sid) db)
                  ≡ₚ List.filter (Server.matches sid) db)
    by apply merge_sort_Permutation.
  split; [exact Hperm|].
  split.
  { intros d. rewrite Hperm, list_elem_of_In, filter_In, <- list_elem_of_In.
    rewrite matches_selected. reflexivity. }
  split; [apply StronglySorted_merge_sort; apply _|].
  split; [rewrite length_take; lia|].
  cbn [Server.current Server.totalRecords Server.total Server.hasNext
         Server.hasPrev].
  split; [reflexivity|].
  assert (Hlen : Server.countDocuments sid db
                 = length (Server.sort_collected_desc
                             (List.filter (Server.matches sid) db))).
  { unfold Server.countDocuments. symmetry. apply Permutation_length, Hperm. }
  split; [exact Hlen|].
  split; [apply Math_ceil_div_is_ceiling; lia|].
  split.
  - destruct (Z.ltb_spec page
                (Math_ceil_div (Z.of_nat (Server.countDocuments sid db)) limit));
      symmetry; [apply bool_decide_eq_true | apply bool_decide_eq_false]; lia.
  - destruct (Z.ltb_spec 1 page);
      symmetry; [apply bool_decide_eq_true | apply bool_decide_eq_false]; lia.
Qed.

(** Five documents of session s1 exist; page 1 with limit 2 returns the two
    most recent ones, 3 pages, 5 records, a next page and no previous
    one. *)
Example behavior_data_first_page :
  Server.getBehaviorData ServerSamples.env0
    (ServerSamples.get_request
       (Server.Query.mk (Some "1") (Some "2") (Some "s1")))
    ServerSamples.six_docs
  = Server.Status200
      (Server.mkBehaviorPage
         [ServerSamples.doc 3 "s1" 50 0 1; ServerSamples.doc 5 "s1" 40 0 0]
         (Server.mkPagination 1 3 5 true false)).
Proof. vm_compute. reflexivity. Qed.

(** A negative page is not refused by the handler: the store rejects the
    negative skip and the answer is 500. *)
Example behavior_data_negative_page :
  Server.getBehaviorData ServerSamples.env0
    (ServerSamples.get_request (Server.Query.mk (Some "-1") None None))
    ServerSamples.six_docs
  = Server.Status500 "Internal server error" None.
Proof. vm_compute. reflexivity. Qed.

(** C7 (witness): the same request. *)
Lemma behavior_data_page_witness :
  ∃ data pg,
    Server.getBehaviorData ServerSamples.env0
      (ServerSamples.get_request
         (Server.Query.mk (Some "1") (Some "2") (Some "s1")))
      ServerSamples.six_docs
    = Server.Status200 (Server.mkBehaviorPage data pg)
    ∧ Server.current pg = 1
    ∧ ServerProps.is_ceiling (Server.total pg)
        (Z.of_nat (Server.totalRecords pg)) 2.
Proof.
  destruct (behavior_data_page ServerSamples.env0
              (ServerSamples.get_request
                 (Server.Query.mk (Some "1") (Some "2") (Some "s1")))
              ServerSamples.six_docs eq_refl
              ltac:(vm_compute; discriminate) ltac:(vm_compute; discriminate))
    as (_ & _ & ordered & pg & Heq & _ & _ & _ & _ & Hcur & _ & Hceil & _).
  exists (take (Z.to_nat 2) (drop (Z.to_nat ((1 - 1) * 2)) ordered)), pg.
  split; [exact Heq|]. split; [exact Hcur | exact Hceil].
Defined.

(** ** Session roll-ups *)

Lemma feed_ids (rows : list Server.Session.t) (d : Server.BehaviorData) :
  map Server.Session._id (Server.feed rows d)
  = if bool_decide (Server.session_id d ∈ map Server.Session._id rows)
    then map Server.Session._id rows
    else map Server.Session._id rows ++ [Server.session_id d].
Proof.
  induction rows as [|r rows IH]; cbn [Server.feed map].
  - rewrite bool_decide_eq_false_2 by apply not_elem_of_nil. reflexivity.
  - destruct (String.eqb_spec (Server.Session._id r) (Server.session_id d))
      as [Heq|Hne].
    + rewrite bool_decide_eq_true_2 by (rewrite Heq; apply list_elem_of_here).
      reflexivity.
    + cbn [map]. rewrite IH.
      destruct (decide (Server.session_id d ∈ map Server.Session._id rows))
        as [Hin|Hout].
      * rewrite !bool_decide_eq_true_2;
          [reflexivity | apply list_elem_of_further, Hin | exact Hin].
      * rewrite !bool_decide_eq_false_2; [reflexivity | | exact Hout].
        rewrite elem_of_cons. intros [Heq|Hin]; [congruence | contradiction].
Qed.

Lemma feed_elem (rows : list Server.Session.t) (d : Server.BehaviorData)
    (r' : Server.Session.t) :
  NoDup (map Server.Session._id rows) →
  r' ∈ Server.feed rows d →
  (r' = Server.open_row d
   ∧ Server.session_id d ∉ map Server.Session._id rows)
  ∨ (∃ r, r ∈ rows ∧ Server.Session._id r = Server.session_id d
          ∧ r' = Server.accumulate r d)
  ∨ (r' ∈ rows ∧ Server.Session._id r' ≠ Server.session_id d).
Proof.
  induction rows as [|r rows IH]; cbn [Server.feed map]; intros Hnd Hin.
  - apply list_elem_of_singleton in Hin. left. split; [exact Hin|].
    apply not_elem_of_nil.
  - apply NoDup_cons in Hnd as [Hfresh Hnd].
    destruct (String.eqb_spec (Server.Session._id r) (Server.session_id d))
      as [Heq|Hne].
    + apply elem_of_cons in Hin as [->|Hin].
      * right. left. exists r. split; [apply list_elem_of_here|]. tauto.
      * right. right. split; [apply list_elem_of_further, Hin|].
        intros Hid. apply Hfresh. rewrite Heq, <- Hid.
        apply list_elem_of_fmap_2, Hin.
    + apply elem_of_cons in Hin as [->|Hin].
      * right. right. split; [apply list_elem_of_here | exact Hne].
      * destruct (IH Hnd Hin) as [[-> Hout]|[(r0 & Hr0 & Hid & ->)|[Hr' Hid]]].
        -- left. split; [reflexivity|]. rewrite elem_of_cons.
           intros [Heq|Hin']; [congruence | contradiction].
        -- right. left. exists r0. split; [apply list_elem_of_further, Hr0|].
           tauto.
        -- right. right. split; [apply list_elem_of_further, Hr' | exact Hid].
Qed.

Lemma of_session_snoc (sid : string) (db : Server.Db) (d : Server.BehaviorData) :
  ServerProps.of_session sid (db ++ [d])
  = ServerProps.of_session sid db
    ++ (if String.eqb (Server.session_id d) sid then [d] else []).
Proof. unfold ServerProps.of_session. rewrite List.filter_app. reflexivity. Qed.

Lemma of_session_absent (sid : string) (db : Server.Db) :
  sid ∉ map Server.session_id db → ServerProps.of_session sid db = [].
Proof.
  intros Hout. unfold ServerProps.of_session.
  induction db as [|d db IH]; [reflexivity|]. cbn [List.filter].
  destruct (String.eqb_spec (Server.session_id d) sid) as [Heq|Hne].
  - exfalso. apply Hout. rewrite <- Heq. apply list_elem_of_here.
  - apply IH. intros Hin. apply Hout. apply list_elem_of_further, Hin.
Qed.

Lemma total_length_snoc (f : Server.BehaviorData → list JsObj)
    (ds : list Server.BehaviorData) (d : Server.BehaviorData) :
  ServerProps.total_length f (ds ++ [d])
  = (ServerProps.total_length f ds + length (f d))%nat.
Proof.
  unfold ServerProps.total_length. rewrite sum_list_with_app. cbn. lia.
Qed.

Lemma summarises_open (d : Server.BehaviorData) :
  ServerProps.summarises (Server.open_row d) [d].
Proof.
  unfold ServerProps.summarises, ServerProps.latest, ServerProps.total_length.
  cbn. repeat split; try lia.
  - exists d, []. repeat split.
  - intros d' Hd'. apply list_elem_of_singleton in Hd' as ->. lia.
  - exists d. split; [apply list_elem_of_here | reflexivity].
Qed.

Lemma summarises_accumulate (r : Server.Session.t)
    (ds : list Server.BehaviorData) (d : Server.BehaviorData) :
  ServerProps.summarises r ds →
  ServerProps.summarises (Server.accumulate r d) (ds ++ [d]).
Proof.
  intros ((d0 & rest & -> & Hs & Hf) & [Hmax (dm & Hdm & Hat)]
          & Hpv & Hmo & Hcl & Hsc & Hke & Hn).
  unfold ServerProps.summarises. rewrite !total_length_snoc.
  cbn [Server.accumulate Server.Session.session_start
         Server.Session.fingerprint Server.Session.last_activity
         Server.Session.page_views_count Server.Session.mouse_events_count
         Server.Session.click_events_count Server.Session.scroll_events_count
         Server.Session.key_events_count Server.Session.total_records].
  split; [exists d0, (rest ++ [d]); repeat split; assumption|].
  split.
  { split.
    - intros d' Hd'. apply elem_of_app in Hd' as [Hd'|Hd'].
      + specialize (Hmax d' Hd'). lia.
      + apply list_elem_of_singleton in Hd' as ->. lia.
    - destruct (Z.max_spec (Server.Session.last_activity r) (Server.collected_at d))
        as [[_ ->]|[_ ->]].
      + exists d. split; [|reflexivity].
        apply elem_of_app. right. apply list_elem_of_here.
      + exists dm. split; [|exact Hat]. apply elem_of_app. left. exact Hdm. }
  rewrite Hpv, Hmo, Hcl, Hsc, Hke, Hn, length_app. cbn [length].
  repeat split.
Qed.

Lemma group_by_session_snoc (db : Server.Db) (d : Server.BehaviorData) :
  Server.group_by_session (db ++ [d])
  = Server.feed (Server.group_by_session db) d.
Proof. unfold Server.group_by_session. rewrite fold_left_app. reflexivity. Qed.

(** What one pass of the grouping stage has built. *)
Lemma group_by_session_spec (db : Server.Db) :
  NoDup (map Server.Session._id (Server.group_by_session db))
  ∧ (∀ sid, sid ∈ map Server.Session._id (Server.group_by_session db)
            ↔ sid ∈ map Server.session_id db)
  ∧ (∀ r, r ∈ Server.group_by_session db →
          ServerProps.summarises r
            (ServerProps.of_session (Server.Session._id r) db)).
Proof.
  induction db as [|d db (Hnd & Hids & Hrows)] using rev_ind.
  - split; [apply NoDup_nil_2|]. split; [reflexivity|].
    intros r Hr. apply elem_of_nil in Hr. contradiction.
  - rewrite group_by_session_snoc.
    set (rows := Server.group_by_session db) in *.
    pose proof (feed_ids rows d) as Hfeed.
    split; [|split].
    + rewrite Hfeed. case_bool_decide as Hin; [exact Hnd|].
      apply NoDup_app. split; [exact Hnd|]. split; [|apply NoDup_singleton].
      intros x Hx Hx'. apply list_elem_of_singleton in Hx' as ->. contradiction.
    + intros sid. rewrite Hfeed, map_app. cbn [map].
      rewrite elem_of_app, list_elem_of_singleton, <- Hids.
      case_bool_decide as Hin.
      * split; [tauto|]. intros [H| ->]; assumption.
      * rewrite elem_of_app, list_elem_of_singleton. reflexivity.
    + intros r' Hr'. rewrite of_session_snoc.
      destruct (feed_elem rows d r' Hnd Hr')
        as [[-> Hout]|[(r & Hr & Hid & ->)|[Hin Hid]]].
      * cbn [Server.open_row Server.Session._id].
        rewrite String.eqb_refl, of_session_absent by (rewrite <- Hids; exact Hout).
        apply summarises_open.
      * cbn [Server.accumulate Server.Session._id]. rewrite Hid, String.eqb_refl.
        apply summarises_accumulate. rewrite <- Hid. apply Hrows, Hr.
      * apply String.eqb_neq in Hid. rewrite String.eqb_sym in Hid.
        rewrite Hid, app_nil_r. apply Hrows, Hin.
Qed.

Lemma distinct_session_id_length (db : Server.Db) :
  length (Server.distinct_session_id db)
  = size (list_to_set (map Server.session_id db) : gset string).
Proof.
  unfold Server.distinct_session_id.
  rewrite <- (size_list_to_set (C := gset string))
    by apply NoDup_remove_dups.
  f_equal. apply set_eq. intros x.
  rewrite !elem_of_list_to_set, elem_of_remove_dups. reflexivity.
Qed.

Lemma group_by_session_length (db : Server.Db) :
  length (Server.group_by_session db) = length (Server.distinct_session_id db).
Proof.
  destruct (group_by_session_spec db) as (Hnd & Hids & _).
  rewrite <- (length_map Server.Session._id).
  apply Permutation_length, NoDup_Permutation.
  - exact Hnd.
  - apply NoDup_remove_dups.
  - intros sid. rewrite Hids. unfold Server.distinct_session_id.
    rewrite elem_of_remove_dups. reflexivity.
Qed.

(** C8. For a request served without a store failure whose page and limit
    (after defaulting) are at least 1, the answer is 200 and its rows are
    the window of at most [limit] rows that follows the first
    (page-1)*limit ones in a list ordered by last activity descending that
    has exactly one row per session id present in the collection; the row
    of a session gives the session start and the fingerprint of the first
    document of the session, the greatest [collected_at] of its documents
    as last activity, for each of the five arrays the sum of its lengths
    over the documents of the session, and the number of these documents;
    the metadata give the page, the number of distinct session ids and
    its ceiling quotient by the limit. *)
Theorem sessions_page
    (env : Server.Env) (req : Server.Request) (db : Server.Db) :
  let q := Server.query req in
  let page := num_or (parseInt (Server.Query.page q)) 1 in
  let limit := num_or (parseInt (Server.Query.limit q)) 50 in
  Server.fault env = None → 1 ≤ page → 1 ≤ limit →
  ∃ rows pages,
    Server.getSessions env req db
    = Server.Status200
        (Server.mkSessionPage
           (take (Z.to_nat limit)
              (drop (Z.to_nat ((page - 1) * limit)) rows))
           (Server.mkSessionPagination page pages (length rows)))
    ∧ NoDup (map Server.Session._id rows)
    ∧ (∀ sid, sid ∈ map Server.Session._id rows
              ↔ ∃ d, d ∈ db ∧ Server.session_id d = sid)
    ∧ (∀ r, r ∈ rows →
            ServerProps.summarises r
              (ServerProps.of_session (Server.Session._id r) db))
    ∧ StronglySorted Server.latest_first rows
    ∧ length rows = size (list_to_set (map Server.session_id db) : gset string)
    ∧ ServerProps.is_ceiling pages (Z.of_nat (length rows)) limit.
Proof.
  intros q page limit Hf Hp Hl.
  destruct (group_by_session_spec db) as (Hnd & Hids & Hrows).
  set (rows := merge_sort Server.latest_first (Server.group_by_session db)).
  assert (Hperm : rows ≡ₚ Server.group_by_session db)
    by apply merge_sort_Permutation.
  assert (Hlen : length rows = length (Server.distinct_session_id db)).
  { rewrite <- group_by_session_length. apply Permutation_length, Hperm. }
  exists rows, (Math_ceil_div (Z.of_nat (length rows)) limit).
  split.
  { unfold Server.getSessions, Server.aggregate. rewrite Hf.
    fold q. fold page limit.
    destruct (Z.ltb_spec ((page - 1) * limit) 0); [nia|].
    destruct (Z.leb_spec limit 0); [lia|].
    fold rows. rewrite <- Hlen. reflexivity. }
  split; [rewrite Hperm; exact Hnd|].
  split.
  { intros sid. rewrite Hperm, Hids, list_elem_of_fmap.
    split; intros (d & H1 & H2); exists d; split; auto. }
  split; [intros r Hr; apply Hrows; rewrite <- Hperm; exact Hr|].
  split; [apply StronglySorted_merge_sort; apply _|].
  split; [rewrite Hlen; apply distinct_session_id_length|].
  apply Math_ceil_div_is_ceiling. lia.
Qed.

(** Two documents of session s1 with one and two page views (and others):
    the row of s1 counts the page views of all its documents. *)
Example sessions_first_page :
  Server.getSessions ServerSamples.env0
    (ServerSamples.get_request ServerSamples.no_query) ServerSamples.six_docs
  = Server.Status200
      (Server.mkSessionPage
         [ Server.Session.mk "s1" 1000 (Some [("ua", JStr "agent of 0")])
             50 4 2 0 0 0 5;
           Server.Session.mk "s2" 1000 (Some [("ua", JStr "agent of 1")])
             15 1 3 0 0 0 1 ]
         (Server.mkSessionPagination 1 1 2)).
Proof. vm_compute. reflexivity. Qed.

(** C8 (witness): the six sample documents. *)
Lemma sessions_page_witness :
  ∃ rows pages,
    Server.getSessions ServerSamples.env0
      (ServerSamples.get_request ServerSamples.no_query) ServerSamples.six_docs
    = Server.Status200
        (Server.mkSessionPage (take 50 (drop 0 rows))
           (Server.mkSessionPagination 1 pages (length rows)))
    ∧ (∀ r, r ∈ rows →
            ServerProps.summarises r
              (ServerProps.of_session (Server.Session._id r)
                 ServerSamples.six_docs)).
Proof.
  destruct (sessions_page ServerSamples.env0
              (ServerSamples.get_request ServerSamples.no_query)
              ServerSamples.six_docs eq_refl
              ltac:(vm_compute; discriminate) ltac:(vm_compute; discriminate))
    as (rows & pages & Heq & _ & _ & Hrows & _).
  exists rows, pages. split; [exact Heq | exact Hrows].
Defined.

(** ** Statistics *)

Lemma reduce_length_total (f : Server.BehaviorData → list JsObj)
    (l : list Server.BehaviorData) :
  Server.reduce_length f l = ServerProps.total_length f l.
Proof.
  unfold Server.reduce_length, ServerProps.total_length.
  enough (H : ∀ acc : nat,
             fold_left (fun sum record => (sum + length (f record))%nat) l acc
             = (acc + sum_list_with (fun d => length (f d)) l)%nat)
    by apply (H 0%nat).
  induction l as [|d l IH]; intros acc; cbn [fold_left sum_list_with].
  - lia.
  - rewrite IH. lia.
Qed.

Lemma since_last_day (now : Z) (db : Server.Db) :
  List.filter (Server.since (now - 24 * 60 * 60 * 1000)) db
  = ServerProps.last_day now db.
Proof.
  unfold ServerProps.last_day. apply filter_ext. intros d. unfold Server.since.
  destruct (Z.leb_spec (now - 24 * 60 * 60 * 1000) (Server.collected_at d));
    symmetry; [apply bool_decide_eq_true | apply bool_decide_eq_false]; lia.
Qed.

Lemma old_docs_collected_at (d : Server.BehaviorData) :
  d ∈ ServerSamples.old_docs → Server.collected_at d = 10.
Proof.
  unfold ServerSamples.old_docs. intros Hd.
  apply list_elem_of_fmap in Hd as (i & -> & _). reflexivity.
Qed.

Lemma find_unsorted_last_day (env : Server.Env) (db : Server.Db) :
  Server.find_unsorted env
    (Server.since (Server.now env - 24 * 60 * 60 * 1000)) db
  = merge_sort (Server.scan_order env)
      (ServerProps.last_day (Server.now env) db).
Proof. unfold Server.find_unsorted. rewrite since_last_day. reflexivity. Qed.

Lemma total_length_Permutation (f : Server.BehaviorData → list JsObj)
    (l k : list Server.BehaviorData) :
  l ≡ₚ k → ServerProps.total_length f l = ServerProps.total_length f k.
Proof.
  intros H. unfold ServerProps.total_length.
  apply (sum_list_with_Permutation_proper _ _ _ H).
Qed.



(** The notion of a most recent sample is not empty there: all documents
    but the first one form such a sample. *)
Example busy_db_most_recent :
  ServerProps.most_recent_sample 1000 ServerSamples.busy_db
    (drop 1 ServerSamples.busy_db).
Proof.
  split; [apply sublist_submseteq, sublist_drop|].
  split; [vm_compute; reflexivity|].
  intros a b Ha Hb Hout.
  assert (Hb10 : Server.collected_at b = 10).
  { unfold ServerSamples.busy_db in Hb. apply elem_of_app in Hb as [Hb|Hb].
    - apply old_docs_collected_at, Hb.
    - exfalso. apply Hout. apply list_elem_of_singleton in Hb as ->.
      apply list_elem_of_lookup. exists 999%nat. vm_compute. reflexivity. }
  assert (Ha' : a ∈ ServerSamples.busy_db).
  { eapply elem_of_sublist; [exact Ha | apply sublist_drop]. }
  unfold ServerSamples.busy_db in Ha'. apply elem_of_app in Ha' as [Ha'|Ha'].
  - rewrite Hb10, (old_docs_collected_at a Ha'). lia.
  - apply list_elem_of_singleton in Ha' as ->. rewrite Hb10. cbn. lia.
Qed.

(** On the same collection, a store that answers from the index on
    [collected_at] descending makes the handler count the mouse event of
    the newest document. *)
Example stats_newest_first :
  Server.getStats ServerSamples.env0 ServerSamples.busy_db
  = Server.Status200
      (Server.mkStats 1001 1 1001 (Server.mkEventStats 1 0 0 0 0)).
Proof. vm_compute. reflexivity. Qed.



(** * Further properties of the collector *)

Import MoreProps.

(** ** Session identifier *)

Lemma generateSessionId_nonempty (now : Z) (rnd : string) :
  generateSessionId now rnd ≠ "".
Proof. unfold generateSessionId. cbn. discriminate. Qed.

(** X1. [getSessionId] never returns an empty identifier, leaves the
    identifier it returns in the storage slot, keeps a non-empty stored
    identifier, and called again on the slot it left (a later page load of
    the same tab) returns the same identifier and slot. *)
Theorem session_id_round_trip
    (stored : option string) (now now' : Z) (rnd rnd' : string) :
  let r := getSessionId stored now rnd in
  fst r ≠ ""
  ∧ snd r = Some (fst r)
  ∧ getSessionId (snd r) now' rnd' = r
  ∧ (∀ sid, stored = Some sid → sid ≠ "" → fst r = sid).
Proof.
  pose proof (generateSessionId_nonempty now rnd) as Hne.
  assert (Hgen : String.eqb (generateSessionId now rnd) "" = false)
    by (apply String.eqb_neq, Hne).
  cbv zeta. unfold getSessionId.
  destruct stored as [sid|]; [destruct (String.eqb_spec sid "") as [->|Hsid]|];
    cbn [fst snd]; rewrite ?Hgen.
  - split; [exact Hne|]. split; [reflexivity|]. split; [reflexivity|].
    intros sid [= <-] H. contradiction.
  - pose proof Hsid as Hsid'. apply String.eqb_neq in Hsid'. rewrite Hsid'.
    split; [exact Hsid|]. split; [reflexivity|]. split; [reflexivity|].
    intros sid' [= <-] _. reflexivity.
  - split; [exact Hne|]. split; [reflexivity|]. split; [reflexivity|].
    intros sid H. discriminate H.
Qed.

(** ** What no input changes *)

Lemma step_identity (s : State) (i : Input) :
  session_id (behaviorData (step s i)) = session_id (behaviorData s)
  ∧ session_start (behaviorData (step s i)) = session_start (behaviorData s)
  ∧ fingerprint (behaviorData (step s i)) = fingerprint (behaviorData s).
Proof.
  assert (Hsend : ∀ now p tr s0,
             session_id (behaviorData (sendData now p tr s0))
             = session_id (behaviorData s0)
             ∧ session_start (behaviorData (sendData now p tr s0))
               = session_start (behaviorData s0)
             ∧ fingerprint (behaviorData (sendData now p tr s0))
               = fingerprint (behaviorData s0)).
  { intros now p tr s0. unfold sendData.
    destruct (all_empty (behaviorData s0)); [tauto|].
    destruct (try_send tr _) as [fx [|]]; cbn; tauto. }
  destruct i; cbn [step].
  - unfold on_mousemove. destruct (50 <? now - lastMouseTime s); cbn; tauto.
  - cbn. tauto.
  - cbn. tauto.
  - unfold on_scroll_timeout. destruct (scrollTimeout s); cbn; tauto.
  - cbn. tauto.
  - cbn. tauto.
  - cbn. tauto.
  - cbn. tauto.
  - apply Hsend.
  - unfold on_beforeunload.
    destruct (Hsend now' p tr (push_page_view (page_view now p "page_exit") s))
      as (-> & -> & ->). cbn. tauto.
  - unfold on_visibilitychange. destruct visible; cbn; tauto.
Qed.

(** X2. Whatever inputs the script receives, the session id, the session
    start and the fingerprint of the buffer stay the ones set at
    initialisation: the session id read from (or written to) the tab
    storage, the start time and the fingerprint object. *)
Theorem session_identity_constant (bt : Boot) (inputs : list Input) :
  session_id (behaviorData (run bt inputs))
  = fst (getSessionId (stored_session bt) (now_session bt) (rnd bt))
  ∧ session_start (behaviorData (run bt inputs)) = now_start bt
  ∧ fingerprint (behaviorData (run bt inputs)) = fp bt.
Proof.
  apply (run_invariant
           (fun s => session_id (behaviorData s)
                     = fst (getSessionId (stored_session bt) (now_session bt)
                              (rnd bt))
                     ∧ session_start (behaviorData s) = now_start bt
                     ∧ fingerprint (behaviorData s) = fp bt)).
  - cbn. tauto.
  - intros s i (H1 & H2 & H3).
    destruct (step_identity s i) as (-> & -> & ->). tauto.
Qed.

(** ** The page-view queue *)

Lemma sendData_page_views (now : Z) (p : Page) (tr : Transport) (s : State) :
  page_views (behaviorData (sendData now p tr s)) = page_views (behaviorData s).
Proof.
  unfold sendData. destruct (all_empty (behaviorData s)); [reflexivity|].
  destruct (try_send tr _) as [fx [|]]; reflexivity.
Qed.

Lemma step_page_views (s : State) (i : Input) :
  page_views (behaviorData s) `prefix_of` page_views (behaviorData (step s i)).
Proof.
  destruct i; cbn [step]; try reflexivity.
  - unfold on_mousemove. destruct (50 <? now - lastMouseTime s); reflexivity.
  - unfold on_scroll_timeout. destruct (scrollTimeout s); reflexivity.
  - apply prefix_app_r. reflexivity.
  - apply prefix_app_r. reflexivity.
  - apply prefix_app_r. reflexivity.
  - rewrite sendData_page_views. reflexivity.
  - unfold on_beforeunload. rewrite sendData_page_views.
    apply prefix_app_r. reflexivity.
  - unfold on_visibilitychange. destruct visible; [|reflexivity].
    apply prefix_app_r. reflexivity.
Qed.

(** X3. The page-view queue is append-only: the queue reached after some
    inputs is a prefix of the queue reached after any further inputs (no
    flush and no cap ever removes a page view), and its first element is
    always the initial page view. *)
Theorem page_views_append_only (bt : Boot) (inputs more : list Input) :
  page_views (behaviorData (run bt inputs))
    `prefix_of` page_views (behaviorData (run bt (inputs ++ more)))
  ∧ head (page_views (behaviorData (run bt inputs)))
    = Some (initial_page_view (now_view bt) (page bt) (timing bt)).
Proof.
  assert (Hpre : ∀ l s,
             page_views (behaviorData s)
               `prefix_of` page_views (behaviorData (fold_left step l s))).
  { induction l as [|i l IH]; intros s; cbn [fold_left]; [reflexivity|].
    etransitivity; [apply step_page_views | apply IH]. }
  split.
  - unfold run. rewrite fold_left_app. apply Hpre.
  - destruct (Hpre inputs (init bt)) as [k Hk]. fold (run bt inputs) in Hk.
    rewrite Hk. reflexivity.
Qed.

(** ** The send guard after the first event *)

Lemma slice_last_nil {A : Type} (n : nat) (l : list A) :
  (0 < n)%nat → slice_last n l = [] → l = [].
Proof.
  intros Hn H. apply (f_equal length) in H.
  rewrite slice_last_length in H. cbn in H.
  destruct l; [reflexivity | cbn in H; lia].
Qed.

Lemma capped_not_nil {A : Type} (cap n : nat) (l : list A) (x : A) :
  (0 < n)%nat →
  (if (cap <? length (l ++ [x]))%nat then slice_last n (l ++ [x]) else l ++ [x])
  ≠ [].
Proof.
  intros Hn H. destruct (cap <? length (l ++ [x]))%nat.
  - apply slice_last_nil in H; [|exact Hn]. destruct l; discriminate H.
  - destruct l; discriminate H.
Qed.

Lemma clear_sent_no_events (b : BehaviorData) :
  no_events (clear_sent b) → no_events b.
Proof.
  unfold no_events, clear_sent.
  cbn [mouse_events click_events scroll_events key_events].
  intros (H1 & H2 & H3 & H4).
  repeat split; eapply slice_last_nil; try eassumption; lia.
Qed.

Lemma sendData_no_events (now : Z) (p : Page) (tr : Transport) (s : State) :
  no_events (behaviorData (sendData now p tr s)) → no_events (behaviorData s).
Proof.
  unfold sendData. destruct (all_empty (behaviorData s)); [tauto|].
  destruct (try_send tr _) as [fx [|]]; cbn [behaviorData]; [|tauto].
  apply clear_sent_no_events.
Qed.

Lemma step_no_events (s : State) (i : Input) :
  no_events (behaviorData (step s i)) → no_events (behaviorData s).
Proof.
  destruct i; cbn [step]; try (intros H; exact H).
  - unfold on_mousemove. destruct (50 <? now - lastMouseTime s); [|tauto].
    unfold no_events. cbn [behaviorData mouse_events]. intros [H _].
    exfalso. revert H. apply capped_not_nil. lia.
  - unfold on_click, set_data, no_events. cbn [behaviorData click_events].
    intros (_ & H & _). exfalso. revert H. apply capped_not_nil. lia.
  - unfold on_scroll_timeout. destruct (scrollTimeout s); [|tauto].
    unfold no_events. cbn [behaviorData scroll_events].
    intros (_ & _ & H & _). exfalso. revert H. apply capped_not_nil. lia.
  - unfold on_keydown, set_data, no_events. cbn [behaviorData key_events].
    intros (_ & _ & _ & H). exfalso. revert H. apply capped_not_nil. lia.
  - apply sendData_no_events.
  - unfold on_beforeunload. intros H. apply sendData_no_events in H. exact H.
  - unfold on_visibilitychange. destruct visible; tauto.
Qed.

Lemma not_no_events_all_empty (b : BehaviorData) :
  ¬ no_events b → all_empty b = false.
Proof.
  intros Hne. destruct (all_empty b) eqn:He; [|reflexivity].
  exfalso. apply Hne, all_empty_no_events, He.
Qed.

(** X4. Once one of the mouse, click, scroll and key queues holds an
    event, none of the later states has all four empty again (the trims
    keep the most recent events), so no later flush, whatever happened in
    between, is held back by the guard of [sendData]: on a host that has
    [sendBeacon] or [fetch] it hands the payload built from the buffer to
    that primitive, and on a host with neither it logs the warning of the
    [catch] block and calls nothing. *)
Theorem flush_never_skipped_again
    (bt : Boot) (inputs more : list Input)
    (now : Z) (p : Page) (tr : Transport) :
  ¬ no_events (behaviorData (run bt inputs)) →
  let s := run bt (inputs ++ more) in
  ¬ no_events (behaviorData s)
  ∧ (has_primitive tr →
     ∃ x rest,
       delivers (dataToSend now p (behaviorData s)) x
       ∧ effects (sendData now p tr s) = effects s ++ x :: rest)
  ∧ (sendBeacon tr = None → fetch tr = None →
     effects (sendData now p tr s) = effects s ++ [warn_send]).
Proof.
  intros Hne s.
  assert (Hs : ¬ no_events (behaviorData s)).
  { subst s. unfold run. rewrite fold_left_app. fold (run bt inputs).
    generalize (run bt inputs) Hne. clear Hne.
    induction more as [|i more IH]; intros s0 H0; cbn [fold_left]; [exact H0|].
    apply IH. intros H. apply H0, (step_no_events s0 i), H. }
  pose proof (not_no_events_all_empty _ Hs) as He.
  split; [exact Hs|]. split.
  - intros Hp. apply sendData_attempt; assumption.
  - intros Hb Hf. apply sendData_no_primitive; assumption.
Qed.

(** X4 (witness): a key press, then a click and a flush on a host without
    beacon, whose [fetch] is called. *)
Lemma flush_never_skipped_again_witness :
  ∃ x rest,
    delivers
      (dataToSend 9000 page0
         (behaviorData
            (run boot0 ([KeyDown 5000 key_a] ++ [Click 6000 click0])))) x
    ∧ effects (sendData 9000 page0 fetch_only
                 (run boot0 ([KeyDown 5000 key_a] ++ [Click 6000 click0])))
      = effects (run boot0 ([KeyDown 5000 key_a] ++ [Click 6000 click0]))
        ++ x :: rest.
Proof.
  apply (flush_never_skipped_again boot0 [KeyDown 5000 key_a]
           [Click 6000 click0] 9000 page0 fetch_only).
  - unfold no_events. intros (_ & _ & _ & H). vm_compute in H. discriminate H.
  - right. discriminate.
Defined.

(** ** Network calls *)

Lemma try_send_calls (tr : Transport) (d : Payload) :
  (length (List.filter is_beacon_call (fst (try_send tr d))) ≤ 1)%nat
  ∧ (length (List.filter is_fetch_call (fst (try_send tr d))) ≤ 1)%nat
  ∧ (∀ x, x ∈ fst (try_send tr d) → is_fetch_call x = true →
          sendBeacon tr = None ∨ sendBeacon tr = Some (Returns false))
  ∧ (∀ x c, x ∈ fst (try_send tr d) → call_of x = Some c →
            c = (API_ENDPOINT, d)).
Proof.
  unfold try_send, try_fetch.
  destruct (sendBeacon tr) as [[[|]|]|], (fetch tr) as [[[|]|]|]; cbn;
    (split; [lia|]); (split; [lia|]);
    (split; [intros x Hx Hf; try (left; reflexivity); try (right; reflexivity);
             exfalso;
             repeat (apply elem_of_cons in Hx as [->|Hx]; [discriminate Hf|]);
             apply elem_of_nil in Hx; contradiction|]);
    intros x c Hx Hc;
    repeat (apply elem_of_cons in Hx as [->|Hx]; [cbn in Hc; congruence|]);
    apply elem_of_nil in Hx; contradiction.
Qed.

(** X5. One call of [sendData] appends to the log of actions, and what it
    appends holds at most one call of [sendBeacon] and at most one call of
    [fetch], each to the configured endpoint and with the payload built
    from the buffer at the time of the call; [fetch] is called only when
    the beacon was not accepted (missing or returned false), never after an
    accepted beacon, nor after a beacon that threw. *)
Theorem flush_network_calls (now : Z) (p : Page) (tr : Transport) (s : State) :
  ∃ fx,
    effects (sendData now p tr s) = effects s ++ fx
    ∧ (length (List.filter is_beacon_call fx) ≤ 1)%nat
    ∧ (length (List.filter is_fetch_call fx) ≤ 1)%nat
    ∧ (∀ x, x ∈ fx → is_fetch_call x = true →
            sendBeacon tr ≠ Some (Returns true))
    ∧ (∀ x c, x ∈ fx → call_of x = Some c →
              c = (API_ENDPOINT, dataToSend now p (behaviorData s)))
    ∧ (∀ x, x ∈ fx → is_fetch_call x = true →
            sendBeacon tr = None ∨ sendBeacon tr = Some (Returns false)).
Proof.
  assert (Hweak : sendBeacon tr = None ∨ sendBeacon tr = Some (Returns false) →
                  sendBeacon tr ≠ Some (Returns true)).
  { intros [H|H]; rewrite H; discriminate. }
  unfold sendData. destruct (all_empty (behaviorData s)).
  - exists []. rewrite app_nil_r. cbn.
    split; [reflexivity|]. split; [lia|]. split; [lia|].
    split; [|split]; intros x; [intros Hx|intros c Hx|intros Hx];
      apply elem_of_nil in Hx; contradiction.
  - pose proof (try_send_calls tr (dataToSend now p (behaviorData s)))
      as (Hb & Hf & Hfetch & Hcall).
    destruct (try_send tr _) as [fx [|]]; cbn [fst] in *; cbn [effects].
    + exists fx. split; [reflexivity|]. split; [exact Hb|]. split; [exact Hf|].
      split; [intros x Hx Hfx; apply Hweak, (Hfetch x Hx Hfx)|].
      split; [exact Hcall | exact Hfetch].
    + exists (fx ++ [warn_send]). rewrite !List.filter_app, !length_app. cbn.
      assert (Hfetch' : ∀ x, x ∈ fx ++ [warn_send] → is_fetch_call x = true →
                             sendBeacon tr = None
                             ∨ sendBeacon tr = Some (Returns false)).
      { intros x Hx Hfx. apply elem_of_app in Hx as [Hx|Hx];
          [exact (Hfetch x Hx Hfx)|].
        apply list_elem_of_singleton in Hx as ->. discriminate Hfx. }
      split; [reflexivity|]. split; [lia|]. split; [lia|].
      split; [intros x Hx Hfx; apply Hweak, (Hfetch' x Hx Hfx)|].
      split; [|exact Hfetch'].
      intros x c Hx Hc. apply elem_of_app in Hx as [Hx|Hx];
        [exact (Hcall x c Hx Hc)|].
      apply list_elem_of_singleton in Hx as ->. discriminate Hc.
Qed.

Lemma sendData_effects_prefix (now : Z) (p : Page) (tr : Transport) (s : State) :
  effects s `prefix_of` effects (sendData now p tr s).
Proof.
  unfold sendData. destruct (all_empty (behaviorData s)); [reflexivity|].
  destruct (try_send tr _) as [fx [|]]; cbn [effects];
    apply prefix_app_r; reflexivity.
Qed.

(** X6. The log of actions is append-only, and only the interval timer
    and the unload handler add to it: no listener (mouse, click, scroll,
    key, history, visibility) ever calls the network or logs. *)
Theorem only_flush_inputs_act (s : State) (i : Input) :
  effects s `prefix_of` effects (step s i)
  ∧ (is_flush i = false → effects (step s i) = effects s).
Proof.
  destruct i; cbn [step is_flush];
    try (split; [reflexivity | intros _; reflexivity]).
  - unfold on_mousemove. destruct (50 <? now - lastMouseTime s);
      (split; [reflexivity | intros _; reflexivity]).
  - unfold on_scroll_timeout. destruct (scrollTimeout s);
      (split; [reflexivity | intros _; reflexivity]).
  - split; [apply sendData_effects_prefix | discriminate].
  - split; [|discriminate]. unfold on_beforeunload.
    etransitivity; [|apply sendData_effects_prefix]. reflexivity.
  - unfold on_visibilitychange. destruct visible;
      (split; [reflexivity | intros _; reflexivity]).
Qed.

(** X6 (witness): a click leaves the log as it is. *)
Lemma only_flush_inputs_act_witness :
  effects (step (init boot0) (Click 6000 click0)) = effects (init boot0).
Proof.
  apply (only_flush_inputs_act (init boot0) (Click 6000 click0)).
  reflexivity.
Defined.

(** ** Flushing twice *)

Lemma slice_last_idem {A : Type} (n : nat) (l : list A) :
  slice_last n (slice_last n l) = slice_last n l.
Proof. apply slice_last_short. rewrite slice_last_length. lia. Qed.

Lemma clear_sent_idem (b : BehaviorData) :
  clear_sent (clear_sent b) = clear_sent b.
Proof.
  unfold clear_sent.
  cbn [session_id session_start mouse_events click_events scroll_events
         key_events fingerprint page_views].
  rewrite !slice_last_idem. reflexivity.
Qed.

Lemma clear_sent_all_empty (b : BehaviorData) :
  all_empty (clear_sent b) = all_empty b.
Proof.
  destruct (all_empty b) eqn:He.
  - apply all_empty_no_events in He as (H1 & H2 & H3 & H4).
    apply all_empty_no_events. unfold no_events, clear_sent.
    cbn [mouse_events click_events scroll_events key_events].
    rewrite H1, H2, H3, H4. repeat split.
  - destruct (all_empty (clear_sent b)) eqn:He'; [|reflexivity].
    apply all_empty_no_events, clear_sent_no_events, all_empty_no_events in He'.
    congruence.
Qed.

(** X7. Events retained by a flush are sent again by the next one. After
    a flush that went ahead and completed, a second flush with no event in
    between, on a host that has [sendBeacon] or [fetch], is not skipped: it
    hands to the network a payload whose four event queues are exactly the
    events the first flush retained (the last 50, 20, 10 and 30), already
    sent once; when it completes too, it leaves the buffer unchanged. *)
Theorem flush_resends_retained
    (now now' : Z) (p p' : Page) (tr tr' : Transport) (s : State) :
  ¬ no_events (behaviorData s) →
  completes tr = true →
  has_primitive tr' →
  let b := behaviorData s in
  let s1 := sendData now p tr s in
  let s2 := sendData now' p' tr' s1 in
  (∃ d rest,
     (effects s2 = effects s1 ++ BeaconCall API_ENDPOINT d :: rest
      ∨ effects s2 = effects s1 ++ FetchCall API_ENDPOINT d :: rest)
     ∧ p_mouse_events d = slice_last 50 (mouse_events b)
     ∧ p_click_events d = slice_last 20 (click_events b)
     ∧ p_scroll_events d = slice_last 10 (scroll_events b)
     ∧ p_key_events d = slice_last 30 (key_events b))
  ∧ (completes tr' = true → behaviorData s2 = behaviorData s1).
Proof.
  intros Hne Hc Hp b s1 s2.
  pose proof (not_no_events_all_empty _ Hne) as He.
  assert (Hb1 : behaviorData s1 = clear_sent b)
    by (apply sendData_completes; assumption).
  assert (He1 : all_empty (behaviorData s1) = false)
    by (rewrite Hb1, clear_sent_all_empty; exact He).
  split.
  - destruct (sendData_attempt now' p' tr' s1 He1 Hp) as (x & rest & Hx & Hfx).
    exists (dataToSend now' p' (behaviorData s1)), rest.
    split.
    + fold s2 in Hfx. rewrite Hfx.
      destruct Hx as [-> | ->]; [left|right]; reflexivity.
    + rewrite Hb1. repeat split.
  - intros Hc'. subst s2. rewrite sendData_completes by assumption.
    rewrite Hb1. apply clear_sent_idem.
Qed.

(** X7 (witness): sixty mouse events flushed twice, the second time on a
    host without beacon. *)
Lemma flush_resends_retained_witness :
  ∃ d rest,
    (effects (sendData 19000 page0 fetch_only
                (sendData 9000 page0 beacon_ok (run boot0 sixty_moves)))
     = effects (sendData 9000 page0 beacon_ok (run boot0 sixty_moves))
       ++ BeaconCall API_ENDPOINT d :: rest
     ∨ effects (sendData 19000 page0 fetch_only
                  (sendData 9000 page0 beacon_ok (run boot0 sixty_moves)))
       = effects (sendData 9000 page0 beacon_ok (run boot0 sixty_moves))
         ++ FetchCall API_ENDPOINT d :: rest)
    ∧ p_mouse_events d
      = slice_last 50 (mouse_events (behaviorData (run boot0 sixty_moves))).
Proof.
  destruct (flush_resends_retained 9000 19000 page0 page0 beacon_ok fetch_only
              (run boot0 sixty_moves)) as [(d & rest & Hcall & Hm & _) _].
  - unfold no_events. intros [H _]. vm_compute in H. discriminate H.
  - reflexivity.
  - right. discriminate.
  - exists d, rest. split; [exact Hcall | exact Hm].
Defined.

(** ** The click collector *)

Lemma substring_prefix_length (n : nat) (s : string) :
  (String.length (String.substring 0 n s) ≤ n)%nat
  ∧ String.prefix (String.substring 0 n s) s = true.
Proof.
  revert s. induction n as [|n IH]; intros s.
  - destruct s; cbn; split; (lia || reflexivity).
  - destruct s as [|c s]; cbn; [split; [lia|reflexivity]|].
    destruct (IH s) as [Hlen Hpre]. split; [lia|].
    destruct (Ascii.ascii_dec c c) as [_|Hc]; [exact Hpre | contradiction].
Qed.

(** X8. The text that the click listener records is at most 50 characters
    long and is a prefix of the text content of the clicked element (empty
    when the element has none). *)
Theorem click_text_bounded (now : Z) (e : PointerClick) :
  ∃ txt,
    get "text" (click_event now e) = Some (JStr txt)
    ∧ (String.length txt ≤ 50)%nat
    ∧ String.prefix txt (default "" (textContent (target e))) = true.
Proof.
  unfold click_event. cbn [get String.eqb Ascii.eqb Bool.eqb].
  destruct (textContent (target e)) as [txt|]; cbn [default].
  - destruct (String.eqb_spec txt "") as [->|_].
    + eexists. split; [reflexivity|]. cbn. split; [lia|reflexivity].
    + eexists. split; [reflexivity|]. apply substring_prefix_length.
  - eexists. split; [reflexivity|]. cbn. split; [lia|reflexivity].
Qed.

(** ** The scroll collector *)

Lemma scrolls_arm (k : nat) (s : State) :
  fold_left step (repeat Scroll (S k)) s
  = mkState (behaviorData s) (lastMouseTime s) true (effects s).
Proof.
  revert s. induction k as [|k IH]; intros s; [reflexivity|].
  change (repeat Scroll (S (S k))) with (Scroll :: repeat Scroll (S k)).
  cbn [fold_left]. rewrite IH. reflexivity.
Qed.

(** X9. Scroll events are debounced: however many scroll events arrive
    before the timer expires (at least one), the expiry appends exactly one
    scroll event to the scroll queue, under the cap, and touches no other
    queue; the timer is then disarmed, its callback running again only
    after a further scroll event. *)
Theorem scroll_burst_one_event (k : nat) (now now' : Z) (w w' : Viewport)
    (s : State) :
  let s' := fold_left step (scroll_burst (S k) now w) s in
  appended_with_cap 100 (scroll_events (behaviorData s)) (scroll_event now w)
    (scroll_events (behaviorData s'))
  ∧ mouse_events (behaviorData s') = mouse_events (behaviorData s)
  ∧ click_events (behaviorData s') = click_events (behaviorData s)
  ∧ key_events (behaviorData s') = key_events (behaviorData s)
  ∧ page_views (behaviorData s') = page_views (behaviorData s)
  ∧ step s' (ScrollTimeout now' w') = s'
  ∧ (scrollTimeout s = false → step s (ScrollTimeout now' w') = s).
Proof.
  intros s'. subst s'. unfold scroll_burst.
  rewrite fold_left_app, scrolls_arm. cbn [fold_left step].
  unfold on_scroll_timeout at 1 2 3 4 5 6.
  cbn [scrollTimeout behaviorData mouse_events click_events scroll_events
         key_events page_views lastMouseTime effects].
  split; [apply appended_with_cap_push; unfold MAX_EVENTS; lia|].
  repeat (split; [reflexivity|]).
  intros H. unfold on_scroll_timeout. rewrite H. reflexivity.
Qed.

(** ** Leaving the page *)

(** X10. The unload handler always queues a [page_exit] page view. When
    the four event queues are empty, nothing is sent: the exit view stays
    in the buffer and no network primitive is called. Otherwise, on a host
    that has [sendBeacon] or [fetch], the payload handed to the network
    ends with that exit view; on a host with neither, nothing is handed to
    the network and only the warning of the [catch] block is logged. *)
Theorem unload_sends_exit_view
    (now now' : Z) (p : Page) (tr : Transport) (s : State) :
  let s' := on_beforeunload now p now' tr s in
  page_views (behaviorData s')
  = page_views (behaviorData s) ++ [page_view now p "page_exit"]
  ∧ (no_events (behaviorData s) → effects s' = effects s)
  ∧ (¬ no_events (behaviorData s) → has_primitive tr →
     ∃ d rest,
       (effects s' = effects s ++ BeaconCall API_ENDPOINT d :: rest
        ∨ effects s' = effects s ++ FetchCall API_ENDPOINT d :: rest)
       ∧ last (p_page_views d) = Some (page_view now p "page_exit"))
  ∧ (¬ no_events (behaviorData s) →
     sendBeacon tr = None → fetch tr = None →
     effects s' = effects s ++ [warn_send]).
Proof.
  intros s'. subst s'. unfold on_beforeunload.
  set (s0 := push_page_view (page_view now p "page_exit") s).
  assert (Hempty : all_empty (behaviorData s0) = all_empty (behaviorData s))
    by reflexivity.
  split; [rewrite sendData_page_views; reflexivity|]. split; [|split].
  - intros H. apply all_empty_no_events in H. rewrite <- Hempty in H.
    rewrite (sendData_skip _ _ _ _ H). reflexivity.
  - intros Hne Hp.
    assert (He : all_empty (behaviorData s0) = false)
      by (rewrite Hempty; apply not_no_events_all_empty, Hne).
    destruct (sendData_attempt now' p tr s0 He Hp) as (x & rest & Hx & Hfx).
    exists (dataToSend now' p (behaviorData s0)), rest.
    split.
    + rewrite Hfx. change (effects s0) with (effects s).
      destruct Hx as [-> | ->]; [left|right]; reflexivity.
    + cbn. apply last_snoc.
  - intros Hne Hb Hf.
    assert (He : all_empty (behaviorData s0) = false)
      by (rewrite Hempty; apply not_no_events_all_empty, Hne).
    destruct (sendData_no_primitive now' p tr s0 He Hb Hf) as [Hfx _].
    exact Hfx.
Qed.

(** X10 (witness): leaving after one key press, on a host with a beacon:
    the payload ends with the exit view. *)
Lemma unload_sends_exit_view_witness :
  ∃ d rest,
    (effects (on_beforeunload 9000 page0 9001 beacon_ok
                (on_keydown 5000 key_a (init boot0)))
     = effects (on_keydown 5000 key_a (init boot0))
       ++ BeaconCall API_ENDPOINT d :: rest
     ∨ effects (on_beforeunload 9000 page0 9001 beacon_ok
                  (on_keydown 5000 key_a (init boot0)))
       = effects (on_keydown 5000 key_a (init boot0))
         ++ FetchCall API_ENDPOINT d :: rest)
    ∧ last (p_page_views d) = Some (page_view 9000 page0 "page_exit").
Proof.
  apply (unload_sends_exit_view 9000 9001 page0 beacon_ok
           (on_keydown 5000 key_a (init boot0))).
  - unfold no_events. cbn. intros (_ & _ & _ & H). discriminate H.
  - left. discriminate.
Defined.

(** ** The rate of mouse events *)

Lemma spaced_far (g : Z) (q : list JsObj) (k i : nat) (a b : JsObj) :
  spaced g q → q !! i = Some a → q !! (i + k)%nat = Some b →
  g * Z.of_nat k ≤ t_of b - t_of a.
Proof.
  intros Hq. revert b. induction k as [|k IH]; intros b Ha Hb.
  - rewrite Nat.add_0_r, Ha in Hb. injection Hb as <-. lia.
  - replace (i + S k)%nat with (S (i + k)) in Hb by lia.
    destruct (q !! (i + k)%nat) as [c|] eqn:Hc.
    + specialize (IH c Ha eq_refl). specialize (Hq (i + k)%nat c b Hc Hb). lia.
    + apply lookup_ge_None in Hc. apply lookup_lt_Some in Hb. lia.
Qed.

(** X11. In every state that the script reaches, the time stamps of the
    mouse queue increase strictly, the event [k] places after another being
    at least 51*k ms later; so two events of the queue that lie within one
    second of each other are fewer than 20 places apart: at most 20 mouse
    events per second are kept. *)
Theorem mouse_rate_limited (bt : Boot) (inputs : list Input)
    (i k : nat) (a b : JsObj) :
  let q := mouse_events (behaviorData (run bt inputs)) in
  q !! i = Some a → q !! (i + k)%nat = Some b →
  51 * Z.of_nat k ≤ t_of b - t_of a
  ∧ (t_of b - t_of a ≤ 1000 → (k < 20)%nat).
Proof.
  intros q Ha Hb.
  destruct (run_throttled bt inputs) as [Hsp _].
  pose proof (spaced_far 51 q k i a b Hsp Ha Hb) as Hfar.
  split; [exact Hfar | lia].
Qed.

(** X11 (witness): the first and the sixth of sixty mouse events. *)
Lemma mouse_rate_limited_witness :
  51 * Z.of_nat 5 ≤ t_of (mouse_event 1600 move0) - t_of (mouse_event 1100 move0).
Proof.
  apply (mouse_rate_limited boot0 sixty_moves 0 5
           (mouse_event 1100 move0) (mouse_event 1600 move0)).
  - vm_compute. reflexivity.
  - vm_compute. reflexivity.
Defined.

(** * Further properties of the schema and of the controller *)

(** ** What the schema keeps *)

(** What the schema keeps of each kind of event that the collector
    builds, and of the fingerprint. *)
Lemma project_client_events
    (now : Z) (m : Client.PointerMove) (c : Client.PointerClick)
    (w : Client.Viewport) (e : Client.KeyboardEvent) (p : Client.Page)
    (type : string) (timing : option (Z * Z)) :
  Schema.project Schema.mouseEventSchema (Client.mouse_event now m)
  = [ ("x", JNum (Client.pm_clientX m)); ("y", JNum (Client.pm_clientY m));
      ("t", JNum now) ]
  ∧ Schema.project Schema.clickEventSchema (Client.click_event now c)
    = [ ("x", JNum (Client.pc_clientX c)); ("y", JNum (Client.pc_clientY c));
        ("btn", JNum (Client.button c));
        ("tgt", JStr (Client.tagName (Client.target c))); ("t", JNum now) ]
  ∧ Schema.project Schema.scrollEventSchema (Client.scroll_event now w)
    = [ ("x", JNum (Client.scrollX w)); ("y", JNum (Client.scrollY w));
        ("t", JNum now) ]
  ∧ Schema.project Schema.keyEventSchema (Client.key_event now e)
    = [ ("t", JNum now) ]
  ∧ Schema.project Schema.pageViewSchema (Client.page_view now p type)
    = [ ("url", JStr (Client.pathname p)); ("title", JStr (Client.title p));
        ("ref", JStr (Client.referrer p)); ("t", JNum now) ]
  ∧ Schema.project Schema.pageViewSchema (Client.initial_page_view now p timing)
    = [ ("url", JStr (Client.pathname p)); ("title", JStr (Client.title p));
        ("ref", JStr (Client.referrer p)); ("t", JNum now) ].
Proof. repeat split. Qed.

Lemma Forall_capped {A : Type} (P : A → Prop) (cap n : nat) (l : list A) (x : A) :
  Forall P l → P x →
  Forall P (if (cap <? length (l ++ [x]))%nat
            then slice_last n (l ++ [x]) else l ++ [x]).
Proof.
  intros Hl Hx.
  assert (H : Forall P (l ++ [x])) by (apply Forall_app; split; [exact Hl | constructor; [exact Hx | constructor]]).
  destruct (cap <? length (l ++ [x]))%nat; [|exact H].
  unfold slice_last. apply Forall_drop, H.
Qed.

Lemma clear_sent_shaped (b : Client.BehaviorData) :
  MoreProps.shaped b → MoreProps.shaped (Client.clear_sent b).
Proof.
  intros (H1 & H2 & H3 & H4 & H5). unfold MoreProps.shaped, Client.clear_sent.
  cbn [Client.mouse_events Client.click_events Client.scroll_events
         Client.key_events Client.page_views].
  unfold slice_last. repeat split; try apply Forall_drop; assumption.
Qed.

Lemma sendData_shaped (now : Z) (p : Client.Page) (tr : Client.Transport)
    (s : Client.State) :
  MoreProps.shaped (Client.behaviorData s) →
  MoreProps.shaped (Client.behaviorData (Client.sendData now p tr s)).
Proof.
  intros H. unfold Client.sendData.
  destruct (Client.all_empty (Client.behaviorData s)); [exact H|].
  destruct (Client.try_send tr _) as [fx [|]]; cbn [Client.behaviorData];
    [apply clear_sent_shaped|]; exact H.
Qed.

Lemma push_page_view_shaped (now : Z) (p : Client.Page) (type : string)
    (s : Client.State) :
  type ∈ MoreProps.navigation_types →
  MoreProps.shaped (Client.behaviorData s) →
  MoreProps.shaped
    (Client.behaviorData
       (Client.push_page_view (Client.page_view now p type) s)).
Proof.
  intros Hty (H1 & H2 & H3 & H4 & H5). unfold MoreProps.shaped.
  cbn. repeat split; try assumption.
  apply Forall_app. split; [exact H5|].
  constructor; [|constructor]. right. exists now, p, type. tauto.
Qed.

Lemma step_shaped (s : Client.State) (i : Client.Input) :
  MoreProps.shaped (Client.behaviorData s) →
  MoreProps.shaped (Client.behaviorData (Client.step s i)).
Proof.
  intros H. pose proof H as (H1 & H2 & H3 & H4 & H5).
  assert (Hty : ∀ ty, ty ∈ MoreProps.navigation_types
                      ↔ ty = "spa_navigation" ∨ ty = "spa_pushstate"
                        ∨ ty = "spa_replacestate" ∨ ty = "page_exit"
                        ∨ ty = "tab_return").
  { intros ty. unfold MoreProps.navigation_types.
    rewrite !elem_of_cons, elem_of_nil. tauto. }
  destruct i; cbn [Client.step].
  - unfold Client.on_mousemove.
    destruct (50 <? now - Client.lastMouseTime s); [|exact H].
    unfold MoreProps.shaped.
    cbn [Client.behaviorData Client.mouse_events Client.click_events
           Client.scroll_events Client.key_events Client.page_views].
    repeat split; try assumption. apply Forall_capped; [exact H1|]. eauto.
  - unfold Client.on_click, Client.set_data, MoreProps.shaped.
    cbn [Client.behaviorData Client.mouse_events Client.click_events
           Client.scroll_events Client.key_events Client.page_views].
    repeat split; try assumption. apply Forall_capped; [exact H2|]. eauto.
  - exact H.
  - unfold Client.on_scroll_timeout. destruct (Client.scrollTimeout s);
      [|exact H].
    unfold MoreProps.shaped.
    cbn [Client.behaviorData Client.mouse_events Client.click_events
           Client.scroll_events Client.key_events Client.page_views].
    repeat split; try assumption. apply Forall_capped; [exact H3|]. eauto.
  - unfold Client.on_keydown, Client.set_data, MoreProps.shaped.
    cbn [Client.behaviorData Client.mouse_events Client.click_events
           Client.scroll_events Client.key_events Client.page_views].
    repeat split; try assumption. apply Forall_capped; [exact H4|]. eauto.
  - apply push_page_view_shaped; [apply Hty; tauto | exact H].
  - apply push_page_view_shaped; [apply Hty; tauto | exact H].
  - apply push_page_view_shaped; [apply Hty; tauto | exact H].
  - apply sendData_shaped, H.
  - apply sendData_shaped, push_page_view_shaped; [apply Hty; tauto | exact H].
  - unfold Client.on_visibilitychange. destruct visible; [|exact H].
    apply push_page_view_shaped; [apply Hty; tauto | exact H].
Qed.

(** X13. In every state that the script reaches, each queued event has the
    shape its collector gives it (so its fields are exactly those of the
    object literal), and a page view is either the initial one or one of
    the five navigation types. Hence of every queued key event the store
    keeps the single field t (its time stamp), of every queued mouse event
    x, y and t, and of no page view the navigation type. *)
Theorem queued_events_shape (bt : Client.Boot) (inputs : list Client.Input) :
  let b := Client.behaviorData (Client.run bt inputs) in
  MoreProps.shaped b
  ∧ (∀ ev, ev ∈ Client.key_events b →
           Schema.project Schema.keyEventSchema ev = [("t", JNum (Props.t_of ev))])
  ∧ (∀ ev, ev ∈ Client.mouse_events b →
           keys (Schema.project Schema.mouseEventSchema ev) = ["x"; "y"; "t"]
           ∧ get "t" (Schema.project Schema.mouseEventSchema ev)
             = Some (JNum (Props.t_of ev)))
  ∧ (∀ v, v ∈ Client.page_views b →
          get "type" (Schema.project Schema.pageViewSchema v) = None
          ∧ keys (Schema.project Schema.pageViewSchema v)
            = ["url"; "title"; "ref"; "t"]).
Proof.
  intros b.
  assert (Hb : MoreProps.shaped b).
  { subst b. apply (run_invariant
                      (fun s => MoreProps.shaped (Client.behaviorData s))).
    - unfold MoreProps.shaped. cbn. repeat split; try constructor.
      + left. eauto.
      + constructor.
    - apply step_shaped. }
  split; [exact Hb|]. destruct Hb as (H1 & _ & _ & H4 & H5).
  split; [|split].
  - intros ev Hev. rewrite Forall_forall in H4.
    destruct (H4 ev Hev) as (now & e & ->). reflexivity.
  - intros ev Hev. rewrite Forall_forall in H1.
    destruct (H1 ev Hev) as (now & m & ->). split; reflexivity.
  - intros v Hv. rewrite Forall_forall in H5.
    destruct (H5 v Hv) as [(now & p & tm & ->)|(now & p & ty & -> & _)];
      split; reflexivity.
Qed.

(** X14. [getFingerprint] always returns the same fifteen fields, whatever
    the host lacks: a missing touch-point count is recorded as 0, missing
    java and pdf flags as false, a missing connection as null, and the
    do-not-track, device-memory and hardware-concurrency values are never
    falsy (they default to a text). Of these the store keeps the first
    eight fields, with their values. *)
Theorem fingerprint_fields
    (navigator : Client.Navigator.t) (screen : Client.Screen.t)
    (timeZone : string) :
  let f := Client.getFingerprint navigator screen timeZone in
  keys f
  = [ "ua"; "lang"; "plat"; "scrw"; "scrh"; "color"; "tz"; "maxTouch";
      "cookies"; "java"; "pdf"; "doNotTrack"; "connection"; "deviceMemory";
      "hardwareConcurrency" ]
  ∧ (∀ k v, k ∈ ["doNotTrack"; "deviceMemory"; "hardwareConcurrency"] →
            get k f = Some v → truthy v = true)
  ∧ (Client.Navigator.maxTouchPoints navigator = None →
     get "maxTouch" f = Some (JNum 0))
  ∧ (Client.Navigator.connection navigator = None →
     get "connection" f = Some JNull)
  ∧ (Client.Navigator.javaEnabled navigator = None →
     get "java" f = Some (JBool false))
  ∧ (Client.Navigator.pdfViewerEnabled navigator = None →
     get "pdf" f = Some (JBool false))
  ∧ Schema.project Schema.fingerprintSchema f
    = [ ("ua", JStr (Client.Navigator.userAgent navigator));
        ("lang", JStr (Client.Navigator.language navigator));
        ("plat", JStr (Client.Navigator.platform navigator));
        ("scrw", JNum (Client.Screen.width screen));
        ("scrh", JNum (Client.Screen.height screen));
        ("color", JNum (Client.Screen.colorDepth screen));
        ("tz", JStr timeZone);
        ("maxTouch",
          JNum (num_or (Client.Navigator.maxTouchPoints navigator) 0)) ].
Proof.
  assert (Hor : ∀ v d, truthy d = true → truthy (val_or v d) = true).
  { intros [x|] d Hd; cbn; [|exact Hd].
    destruct (truthy x) eqn:Hx; [exact Hx | exact Hd]. }
  cbv zeta. split; [reflexivity|]. split.
  - intros k v Hk Hget.
    repeat (apply elem_of_cons in Hk as [->|Hk];
            [cbn in Hget; injection Hget as <-; apply Hor; reflexivity|]).
    apply elem_of_nil in Hk. contradiction.
  - repeat (split; [intros H; cbn; rewrite H; reflexivity|]). reflexivity.
Qed.

(** ** The collection under a sequence of posts *)

Lemma collect_step (env : Server.Env) (req : Server.Request) (db : Server.Db) :
  snd (Server.collectBehavior env req db) = db
  ∨ ∃ saved,
      snd (Server.collectBehavior env req db) = db ++ [saved]
      ∧ Server._id saved = length db
      ∧ Server.session_id saved ≠ ""
      ∧ Server.Body.session_id (Server.body req)
        = Some (Server.session_id saved).
Proof.
  unfold Server.collectBehavior.
  destruct (Server.no_session_id (Server.body req)) eqn:Hno; [left; reflexivity|].
  unfold Server.create, Server.validate. cbn [Server.fields].
  unfold Server.no_session_id in Hno.
  destruct (Server.Body.session_id (Server.body req)) as [sid|] eqn:Hsid;
    [|discriminate Hno].
  rewrite Hno.
  destruct (Server.Body.session_start (Server.body req)); [|left; reflexivity].
  destruct (Server.fault env); [left; reflexivity|].
  right. eexists. split; [reflexivity|]. cbn. rewrite Hsid. cbn.
  split; [reflexivity|]. split; [|reflexivity].
  apply String.eqb_neq, Hno.
Qed.

Lemma collect_all_snoc (posts : list (Server.Env * Server.Request))
    (post : Server.Env * Server.Request) (db : Server.Db) :
  MoreServerProps.collect_all (posts ++ [post]) db
  = snd (Server.collectBehavior (fst post) (snd post)
           (MoreServerProps.collect_all posts db)).
Proof. unfold MoreServerProps.collect_all. rewrite fold_left_app. reflexivity. Qed.

Lemma collect_all_ids (posts : list (Server.Env * Server.Request)) :
  let db := MoreServerProps.collect_all posts [] in
  map Server._id db = seq 0 (length db)
  ∧ (∀ d, d ∈ db → Server.session_id d ≠ "")
  ∧ (length db ≤ length posts)%nat.
Proof.
  induction posts as [|post posts IH] using rev_ind.
  - cbn. split; [reflexivity|]. split; [|lia].
    intros d Hd. apply elem_of_nil in Hd. contradiction.
  - cbv zeta in *. rewrite collect_all_snoc, length_app. cbn [length].
    destruct IH as (Hids & Hsid & Hlen).
    destruct (collect_step (fst post) (snd post)
                (MoreServerProps.collect_all posts []))
      as [-> | (saved & -> & Hid & Hne & _)].
    + split; [exact Hids|]. split; [exact Hsid | lia].
    + rewrite map_app, length_app. cbn [map length].
      rewrite Nat.add_1_r, seq_S, Hids, Hid. split; [reflexivity|].
      split; [|lia]. intros d Hd. apply elem_of_app in Hd as [Hd|Hd].
      * apply Hsid, Hd.
      * apply list_elem_of_singleton in Hd as ->. exact Hne.
Qed.

(** X15. Starting from an empty collection, after any sequence of posts
    (accepted or not, with or without store failures): every stored
    document has a non-empty session id; there are at most as many
    documents as posts; and the collection only grows, each further post
    leaving the earlier documents in place and unchanged. *)
Theorem collection_after_posts
    (posts more : list (Server.Env * Server.Request)) :
  let db := MoreServerProps.collect_all posts [] in
  (∀ d, d ∈ db → Server.session_id d ≠ "")
  ∧ (length db ≤ length posts)%nat
  ∧ db `prefix_of` MoreServerProps.collect_all (posts ++ more) [].
Proof.
  intros db. destruct (collect_all_ids posts) as (_ & Hsid & Hlen).
  fold db in Hsid, Hlen.
  split; [exact Hsid|]. split; [exact Hlen|].
  unfold MoreServerProps.collect_all at 1. rewrite fold_left_app.
  fold (MoreServerProps.collect_all posts []). fold db.
  generalize db. clear. induction more as [|post more IH]; intros db;
    cbn [fold_left]; [reflexivity|].
  etransitivity; [|apply IH].
  destruct (collect_step (fst post) (snd post) db) as [-> | (saved & -> & _)];
    [reflexivity | apply prefix_app_r; reflexivity].
Qed.

(** ** Retrieval by identifier *)

Lemma findById_spec (id : nat) (db : Server.Db) :
  match Server.findById id db with
  | Some d => d ∈ db ∧ Server._id d = id
  | None => ∀ d, d ∈ db → Server._id d ≠ id
  end.
Proof.
  unfold Server.findById.
  destruct (List.find _ db) as [d|] eqn:Hf.
  - apply find_some in Hf as [Hin Heq]. apply Nat.eqb_eq in Heq.
    split; [apply list_elem_of_In, Hin | exact Heq].
  - intros d Hd Hid. apply list_elem_of_In in Hd.
    pose proof (find_none _ _ Hf d Hd) as Hn. cbn in Hn.
    apply Nat.eqb_neq in Hn. contradiction.
Qed.

(** X16. Retrieval by identifier, when the store does not fail and the
    route parameter is an identifier: the answer is 200 with a stored
    document of that identifier when there is one, and 404 with the
    message Behavior data record not found exactly when no stored document
    has that identifier; it is never a 500. *)
Theorem record_by_id (env : Server.Env) (id : nat) (db : Server.Db) :
  Server.fault env = None →
  let r := Server.getBehaviorDataById env (Some id) db in
  (∀ d, r = Server.Record200 d → d ∈ db ∧ Server._id d = id)
  ∧ (r = Server.Record404 "Behavior data record not found"
     ↔ ∀ d, d ∈ db → Server._id d ≠ id)
  ∧ (∀ d, d ∈ db → Server._id d = id → ∃ d', r = Server.Record200 d')
  ∧ (∀ m e, r ≠ Server.Record500 m e).
Proof.
  intros Hf r. subst r. unfold Server.getBehaviorDataById. rewrite Hf.
  pose proof (findById_spec id db) as Hspec.
  destruct (Server.findById id db) as [d0|].
  - destruct Hspec as [Hin Hid]. split; [intros d [= <-]; tauto|].
    split; [split; [discriminate | intros H; exfalso; exact (H d0 Hin Hid)]|].
    split; [eauto | discriminate].
  - split; [discriminate|]. split; [tauto|].
    split; [intros d Hd Hid; exfalso; exact (Hspec d Hd Hid) | discriminate].
Qed.

(** X16 (witness): an identifier that no sample document has. *)
Lemma record_by_id_witness :
  Server.getBehaviorDataById ServerSamples.env0 (Some 9%nat)
    ServerSamples.six_docs
  = Server.Record404 "Behavior data record not found".
Proof.
  apply (record_by_id ServerSamples.env0 9 ServerSamples.six_docs eq_refl).
  intros d Hd.
  repeat (apply elem_of_cons in Hd as [->|Hd]; [discriminate|]).
  apply elem_of_nil in Hd. contradiction.
Defined.

Lemma find_app_split {A : Type} (f : A → bool) (l k : list A) :
  List.find f (l ++ k)
  = match List.find f l with
    | Some x => Some x
    | None => List.find f k
    end.
Proof.
  induction l as [|x l IH]; cbn [app List.find]; [reflexivity|].
  destruct (f x); [reflexivity | exact IH].
Qed.

Lemma findById_last (db : Server.Db) (saved : Server.BehaviorData) :
  map Server._id db = seq 0 (length db) →
  Server._id saved = length db →
  Server.findById (length db) (db ++ [saved]) = Some saved
  ∧ ∀ d, d ∈ db →
         Server.findById (Server._id d) (db ++ [saved])
         = Server.findById (Server._id d) db.
Proof.
  intros Hids Hid.
  assert (Hlt : ∀ d, d ∈ db → (Server._id d < length db)%nat).
  { intros d Hd. apply (list_elem_of_fmap_2 Server._id) in Hd.
    change (Server._id <$> db) with (map Server._id db) in Hd.
    rewrite Hids in Hd. apply elem_of_seq in Hd. lia. }
  unfold Server.findById. rewrite !find_app_split. split.
  - destruct (List.find _ db) as [d|] eqn:Hf.
    + apply find_some in Hf as [Hin Heq]. apply Nat.eqb_eq in Heq.
      apply list_elem_of_In, Hlt in Hin. lia.
    + cbn [List.find]. rewrite Hid, Nat.eqb_refl. reflexivity.
  - intros d Hd. rewrite find_app_split.
    destruct (List.find (fun d0 => Server._id d0 =? Server._id d)%nat db)
      as [d'|] eqn:Hf; [reflexivity|].
    apply list_elem_of_In in Hd. pose proof (find_none _ _ Hf d Hd) as Hn.
    cbn in Hn. rewrite Nat.eqb_refl in Hn. discriminate Hn.
Qed.

(** X17. Storing then retrieving. In a collection whose identifiers are
    0, 1, 2, ... in storage order (any collection built by posts), a post
    answered 200 is followed by: retrieval by the returned record
    identifier answers 200 with the document just stored, which carries the
    posted session id and the caller's address and user agent; and every
    document stored before is retrieved as before the post. *)
Theorem collect_then_retrieve
    (env env' : Server.Env) (req : Server.Request) (db : Server.Db)
    (c : Server.Collected) :
  map Server._id db = seq 0 (length db) →
  Server.fault env' = None →
  fst (Server.collectBehavior env req db) = Server.Status200 c →
  let db' := snd (Server.collectBehavior env req db) in
  ∃ saved,
    db' = db ++ [saved]
    ∧ Server.getBehaviorDataById env' (Some (Server.c_record_id c)) db'
      = Server.Record200 saved
    ∧ Server.session_id saved = Server.c_session_id c
    ∧ Server.ip_address saved
      = opt_str_or (Server.ip req) (Server.remoteAddress req)
    ∧ Server.user_agent saved = Server.userAgent req
    ∧ (∀ d, d ∈ db →
            Server.getBehaviorDataById env' (Some (Server._id d)) db'
            = Server.getBehaviorDataById env' (Some (Server._id d)) db).
Proof.
  intros Hids Hf Hok db'. subst db'.
  unfold Server.collectBehavior in *.
  destruct (Server.no_session_id (Server.body req)); [discriminate Hok|].
  unfold Server.create in *.
  destruct (Server.validate _); [discriminate Hok|].
  destruct (Server.fault env); [discriminate Hok|].
  cbn [fst snd] in *. injection Hok as <-.
  eexists. split; [reflexivity|].
  cbn [Server.c_record_id Server.c_session_id Server.document Server._id
         Server.session_id Server.ip_address Server.user_agent
         Server.dts_ip_address Server.dts_user_agent Server.fields].
  unfold Server.getBehaviorDataById. rewrite Hf.
  match goal with
  | |- context [db ++ [?x]] =>
      destruct (findById_last db x Hids eq_refl) as [Hlast Hold]
  end.
  rewrite Hlast. repeat (split; [reflexivity|]).
  intros d Hd. rewrite (Hold d Hd). reflexivity.
Qed.

(** X17 (witness): a post into the six sample documents. *)
Lemma collect_then_retrieve_witness :
  ∃ saved,
    snd (Server.collectBehavior ServerSamples.env0
           (ServerSamples.post_request ServerSamples.body_s1)
           ServerSamples.six_docs)
    = ServerSamples.six_docs ++ [saved]
    ∧ Server.getBehaviorDataById ServerSamples.env0 (Some 6%nat)
        (snd (Server.collectBehavior ServerSamples.env0
                (ServerSamples.post_request ServerSamples.body_s1)
                ServerSamples.six_docs))
      = Server.Record200 saved.
Proof.
  destruct (collect_then_retrieve ServerSamples.env0 ServerSamples.env0
              (ServerSamples.post_request ServerSamples.body_s1)
              ServerSamples.six_docs
              (Server.mkCollected "Behavior data collected successfully"
                 "s1" 6%nat)
              eq_refl eq_refl eq_refl)
    as (saved & H1 & H2 & _).
  exists saved. split; [exact H1 | exact H2].
Defined.

(** ** Pages *)

Lemma take_add_drop {A : Type} (a b : nat) (l : list A) :
  take (a + b) l = take a l ++ take b (drop a l).
Proof.
  revert l. induction a as [|a IH]; intros l; [reflexivity|].
  destruct l as [|x l]; [cbn; rewrite take_nil; reflexivity|].
  cbn. rewrite IH. reflexivity.
Qed.

Lemma getBehaviorData_data (env : Server.Env) (req : Server.Request)
    (db : Server.Db) (limit : Z) (sid : option string) (i : nat) :
  Server.fault env = None → 1 ≤ limit →
  MoreServerProps.asks_page limit sid i req →
  MoreServerProps.data_of (Server.getBehaviorData env req db)
  = take (Z.to_nat limit)
      (drop (i * Z.to_nat limit)
         (Server.sort_collected_desc (List.filter (Server.matches sid) db))).
Proof.
  intros Hf Hl (Hp & Hlim & Hsid). unfold Server.getBehaviorData.
  rewrite Hf, Hp, Hlim, Hsid, find_page_ok by nia.
  cbn [MoreServerProps.data_of Server.data]. do 2 f_equal. nia.
Qed.

Lemma pages_concat (env : Server.Env) (db : Server.Db) (limit : Z)
    (sid : option string) (reqs : list Server.Request) (k : nat) :
  Server.fault env = None → 1 ≤ limit →
  (∀ (i : nat) req, reqs !! i = Some req →
                    MoreServerProps.asks_page limit sid (k + i) req) →
  concat (map (fun req =>
                 MoreServerProps.data_of (Server.getBehaviorData env req db))
            reqs)
  = take (length reqs * Z.to_nat limit)
      (drop (k * Z.to_nat limit)
         (Server.sort_collected_desc (List.filter (Server.matches sid) db))).
Proof.
  intros Hf Hl. revert k.
  induction reqs as [|req reqs IH]; intros k Hreqs; [reflexivity|].
  cbn [map concat length].
  rewrite (getBehaviorData_data env req db limit sid k Hf Hl).
  2:{ specialize (Hreqs 0%nat req eq_refl). rewrite Nat.add_0_r in Hreqs.
      exact Hreqs. }
  rewrite (IH (S k)).
  2:{ intros i r Hr. specialize (Hreqs (S i) r Hr).
      replace (S k + i)%nat with (k + S i)%nat by lia. exact Hreqs. }
  replace (S (length reqs) * Z.to_nat limit)%nat
    with (Z.to_nat limit + length reqs * Z.to_nat limit)%nat by lia.
  rewrite take_add_drop, drop_drop. do 3 f_equal. lia.
Qed.

(** X18. Pages partition the result. When requests ask, in order, for
    pages 1, 2, ..., n of the same size (at least 1) and with the same
    session filter, and n pages are enough to hold all matching documents,
    the records of the answers put end to end are exactly the matching
    documents in descending [collected_at] order: no record is lost or
    repeated across pages. *)
Theorem pages_partition (env : Server.Env) (db : Server.Db) (limit : Z)
    (sid : option string) (reqs : list Server.Request) :
  Server.fault env = None → 1 ≤ limit →
  (∀ (i : nat) req, reqs !! i = Some req →
                    MoreServerProps.asks_page limit sid i req) →
  Z.of_nat (Server.countDocuments sid db) ≤ Z.of_nat (length reqs) * limit →
  concat (map (fun req =>
                 MoreServerProps.data_of (Server.getBehaviorData env req db))
            reqs)
  = Server.sort_collected_desc (List.filter (Server.matches sid) db).
Proof.
  intros Hf Hl Hreqs Hn.
  rewrite (pages_concat env db limit sid reqs 0 Hf Hl Hreqs).
  cbn [Nat.mul drop]. apply take_ge.
  unfold Server.sort_collected_desc.
  rewrite (Permutation_length (merge_sort_Permutation _ _)).
  unfold Server.countDocuments in Hn. nia.
Qed.

(** X18 (witness): three pages of size 2 over the five documents of
    session s1. *)
Lemma pages_partition_witness :
  concat (map (fun req =>
                 MoreServerProps.data_of
                   (Server.getBehaviorData ServerSamples.env0 req
                      ServerSamples.six_docs))
            MoreServerProps.three_pages)
  = Server.sort_collected_desc
      (List.filter (Server.matches (Some "s1")) ServerSamples.six_docs).
Proof.
  apply (pages_partition ServerSamples.env0 ServerSamples.six_docs 2
           (Some "s1") MoreServerProps.three_pages eq_refl).
  - lia.
  - intros i req Hreq. destruct i as [|[|[|i]]]; cbn in Hreq;
      [injection Hreq as <-; repeat split ..| discriminate Hreq].
  - vm_compute. discriminate.
Defined.

(** X19. Size of a page. For a request served without a store failure
    with page and limit (after defaulting) at least 1, the number of
    records returned is min(limit, matching - (page-1)*limit), or 0 when
    that is negative; hasNext is true exactly when more than page*limit
    documents match, in which case the page is full; past the last page
    the answer is still 200, with no records and hasNext false. *)
Theorem page_size
    (env : Server.Env) (req : Server.Request) (db : Server.Db) :
  let q := Server.query req in
  let page := num_or (parseInt (Server.Query.page q)) 1 in
  let limit := num_or (parseInt (Server.Query.limit q)) 50 in
  let matching := Z.of_nat (Server.countDocuments (Server.Query.session_id q) db) in
  Server.fault env = None → 1 ≤ page → 1 ≤ limit →
  ∃ pg,
    Server.getBehaviorData env req db = Server.Status200 pg
    ∧ Z.of_nat (length (Server.data pg))
      = Z.max 0 (Z.min limit (matching - (page - 1) * limit))
    ∧ (Server.hasNext (Server.pagination pg) = true ↔ page * limit < matching)
    ∧ (Server.hasNext (Server.pagination pg) = true →
       Z.of_nat (length (Server.data pg)) = limit)
    ∧ (matching ≤ (page - 1) * limit →
       Server.data pg = []
       ∧ Server.hasNext (Server.pagination pg) = false).
Proof.
  intros q page limit matching Hf Hp Hl.
  unfold Server.getBehaviorData. rewrite Hf. fold q. fold page limit.
  rewrite find_page_ok by nia. eexists. split; [reflexivity|].
  cbn [Server.data Server.pagination Server.hasNext]. fold matching.
  pose proof (Math_ceil_div_is_ceiling matching limit ltac:(lia)) as [Hc1 Hc2].
  set (pages := Math_ceil_div matching limit) in *.
  assert (Hlen : Z.of_nat
                   (length
                      (take (Z.to_nat limit)
                         (drop (Z.to_nat ((page - 1) * limit))
                            (Server.sort_collected_desc
                               (List.filter
                                  (Server.matches (Server.Query.session_id q))
                                  db)))))
                 = Z.max 0 (Z.min limit (matching - (page - 1) * limit))).
  { rewrite length_take, length_drop. unfold Server.sort_collected_desc.
    rewrite (Permutation_length (merge_sort_Permutation _ _)).
    subst matching. unfold Server.countDocuments. nia. }
  assert (Hnext : (page <? pages) = true ↔ page * limit < matching).
  { rewrite Z.ltb_lt. split; intros H; nia. }
  split; [exact Hlen|]. split; [exact Hnext|]. split.
  - intros H. apply Hnext in H. rewrite Hlen. nia.
  - intros H. split.
    + apply length_zero_iff_nil. apply Nat2Z.inj. rewrite Hlen. cbn. nia.
    + apply Z.ltb_ge. nia.
Qed.

(** X19 (witness): page 4 of size 2 over the five documents of session
    s1 is empty. *)
Lemma page_size_witness :
  ∃ pg,
    Server.getBehaviorData ServerSamples.env0
      (ServerSamples.get_request
         (Server.Query.mk (Some "4") (Some "2") (Some "s1")))
      ServerSamples.six_docs
    = Server.Status200 pg
    ∧ Server.data pg = [].
Proof.
  destruct (page_size ServerSamples.env0
              (ServerSamples.get_request
                 (Server.Query.mk (Some "4") (Some "2") (Some "s1")))
              ServerSamples.six_docs eq_refl
              ltac:(vm_compute; discriminate) ltac:(vm_compute; discriminate))
    as (pg & Heq & _ & _ & _ & Hlast).
  exists pg. split; [exact Heq|].
  apply Hlast. vm_compute. discriminate.
Defined.

(** ** Session roll-ups account for every document *)

Lemma feed_sum (g : Server.Session.t → nat) (h : Server.BehaviorData → nat) :
  (∀ d, g (Server.open_row d) = h d) →
  (∀ r d, g (Server.accumulate r d) = (g r + h d)%nat) →
  ∀ rows d,
    sum_list_with g (Server.feed rows d) = (sum_list_with g rows + h d)%nat.
Proof.
  intros Hopen Hacc rows d.
  induction rows as [|r rows IH]; cbn [Server.feed sum_list_with].
  - rewrite Hopen. lia.
  - destruct (String.eqb (Server.Session._id r) (Server.session_id d));
      cbn [sum_list_with]; [rewrite Hacc | rewrite IH]; lia.
Qed.

Lemma group_sum (g : Server.Session.t → nat) (h : Server.BehaviorData → nat)
    (db : Server.Db) :
  (∀ d, g (Server.open_row d) = h d) →
  (∀ r d, g (Server.accumulate r d) = (g r + h d)%nat) →
  sum_list_with g (Server.group_by_session db) = sum_list_with h db.
Proof.
  intros Hopen Hacc. induction db as [|d db IH] using rev_ind; [reflexivity|].
  rewrite group_by_session_snoc, (feed_sum g h Hopen Hacc), IH,
    sum_list_with_app.
  cbn. lia.
Qed.

Lemma sum_ones {A : Type} (l : list A) :
  sum_list_with (fun _ => 1%nat) l = length l.
Proof. induction l as [|x l IH]; cbn; [reflexivity | rewrite IH; reflexivity]. Qed.

(** X20. The session rows account for every stored document exactly once.
    When the first page is large enough to hold all sessions, the record
    counts of the returned rows add up to the number of stored documents,
    and for each of the five arrays the counts of the rows add up to the
    total length of that array over all stored documents. *)
Theorem sessions_account_for_all
    (env : Server.Env) (req : Server.Request) (db : Server.Db) :
  let q := Server.query req in
  let page := num_or (parseInt (Server.Query.page q)) 1 in
  let limit := num_or (parseInt (Server.Query.limit q)) 50 in
  Server.fault env = None → page = 1 →
  1 ≤ limit → Z.of_nat (length (Server.distinct_session_id db)) ≤ limit →
  ∃ pg,
    Server.getSessions env req db = Server.Status200 pg
    ∧ length (Server.sessions pg)
      = Server.totalSessions (Server.sessions_pagination pg)
    ∧ sum_list_with Server.Session.total_records (Server.sessions pg)
      = length db
    ∧ sum_list_with Server.Session.page_views_count (Server.sessions pg)
      = ServerProps.total_length Server.page_views db
    ∧ sum_list_with Server.Session.mouse_events_count (Server.sessions pg)
      = ServerProps.total_length Server.mouse_events db
    ∧ sum_list_with Server.Session.click_events_count (Server.sessions pg)
      = ServerProps.total_length Server.click_events db
    ∧ sum_list_with Server.Session.scroll_events_count (Server.sessions pg)
      = ServerProps.total_length Server.scroll_events db
    ∧ sum_list_with Server.Session.key_events_count (Server.sessions pg)
      = ServerProps.total_length Server.key_events db.
Proof.
  intros q page limit Hf Hp Hl Hfit.
  unfold Server.getSessions, Server.aggregate. rewrite Hf.
  fold q. fold page limit. rewrite Hp.
  destruct (Z.ltb_spec ((1 - 1) * limit) 0); [lia|].
  destruct (Z.leb_spec limit 0); [lia|].
  eexists. split; [reflexivity|].
  cbn [Server.sessions Server.sessions_pagination Server.totalSessions].
  assert (Hperm : merge_sort Server.latest_first (Server.group_by_session db)
                  ≡ₚ Server.group_by_session db)
    by apply merge_sort_Permutation.
  replace (Z.to_nat ((1 - 1) * limit)) with 0%nat by lia. rewrite drop_0.
  rewrite take_ge.
  2:{ rewrite (Permutation_length Hperm), group_by_session_length. lia. }
  rewrite (Permutation_length Hperm), group_by_session_length.
  split; [reflexivity|].
  unfold ServerProps.total_length.
  repeat split;
    rewrite (sum_list_with_Permutation_proper _ _ _ Hperm);
    [rewrite <- sum_ones|..]; apply group_sum; intros; cbn; lia.
Qed.

(** X20 (witness): the six sample documents. *)
Lemma sessions_account_for_all_witness :
  ∃ pg,
    Server.getSessions ServerSamples.env0
      (ServerSamples.get_request ServerSamples.no_query) ServerSamples.six_docs
    = Server.Status200 pg
    ∧ sum_list_with Server.Session.total_records (Server.sessions pg)
      = length ServerSamples.six_docs.
Proof.
  destruct (sessions_account_for_all ServerSamples.env0
              (ServerSamples.get_request ServerSamples.no_query)
              ServerSamples.six_docs eq_refl eq_refl
              ltac:(vm_compute; discriminate) ltac:(vm_compute; discriminate))
    as (pg & Heq & _ & Hsum & _).
  exists pg. split; [exact Heq | exact Hsum].
Defined.

(** ** Statistics: bounds and exactness *)

Lemma remove_dups_length {A : Type} `{EqDecision A} (l : list A) :
  (length (remove_dups l) ≤ length l)%nat.
Proof.
  induction l as [|x l IH]; cbn; [lia|].
  destruct (decide_rel elem_of x l); cbn; lia.
Qed.

Lemma total_length_take (f : Server.BehaviorData → list JsObj) (n : nat)
    (l : list Server.BehaviorData) :
  (ServerProps.total_length f (take n l) ≤ ServerProps.total_length f l)%nat.
Proof.
  unfold ServerProps.total_length.
  rewrite <- (take_drop n l) at 2. rewrite sum_list_with_app. lia.
Qed.

(** X21. Served without a store failure, the statistics satisfy: the
    24-hour count and the number of sessions never exceed the number of
    records; the number of sessions is 0 only for an empty collection; a
    document collected exactly 24 hours ago is still counted; each event
    total never exceeds the true total over the 24-hour window, and equals
    it whenever the window holds at most 1000 documents. *)
Theorem stats_bounds (env : Server.Env) (db : Server.Db) :
  Server.fault env = None →
  ∃ stats,
    Server.getStats env db = Server.Status200 stats
    ∧ (Server.last_24_hours stats ≤ Server.total_records stats)%nat
    ∧ (Server.total_sessions stats ≤ Server.total_records stats)%nat
    ∧ (Server.total_sessions stats = 0%nat ↔ db = [])
    ∧ (∀ d, d ∈ db → Server.collected_at d = Server.now env - 86400000 →
            (0 < Server.last_24_hours stats)%nat)
    ∧ (let window := ServerProps.last_day (Server.now env) db in
       let ev := Server.event_statistics stats in
       let within (n : nat) (f : Server.BehaviorData → list JsObj) :=
         (n ≤ ServerProps.total_length f window)%nat
         ∧ ((length window ≤ 1000)%nat →
            n = ServerProps.total_length f window) in
       within (Server.total_mouse_events ev) Server.mouse_events
       ∧ within (Server.total_click_events ev) Server.click_events
       ∧ within (Server.total_scroll_events ev) Server.scroll_events
       ∧ within (Server.total_key_events ev) Server.key_events
       ∧ within (Server.total_page_views ev) Server.page_views).
Proof.
  intros Hf. eexists. split.
  { unfold Server.getStats. rewrite Hf. reflexivity. }
  cbn [Server.total_records Server.total_sessions Server.last_24_hours
         Server.event_statistics Server.total_mouse_events
         Server.total_click_events Server.total_scroll_events
         Server.total_key_events Server.total_page_views].
  rewrite find_unsorted_last_day, since_last_day, !reduce_length_total.
  split.
  { unfold ServerProps.last_day. apply List.filter_length_le. }
  split.
  { unfold Server.distinct_session_id.
    etransitivity; [apply remove_dups_length | rewrite length_map; lia]. }
  split.
  { unfold Server.distinct_session_id. split.
    - intros H. apply length_zero_iff_nil in H.
      destruct db as [|d db]; [reflexivity|exfalso].
      assert (Hin : Server.session_id d ∈ remove_dups (map Server.session_id (d :: db)))
        by (apply elem_of_remove_dups, list_elem_of_here).
      rewrite H in Hin. apply elem_of_nil in Hin. exact Hin.
    - intros ->. reflexivity. }
  split.
  { intros d Hd Hat.
    assert (Hin : d ∈ ServerProps.last_day (Server.now env) db).
    { unfold ServerProps.last_day. apply list_elem_of_In, filter_In.
      split; [apply list_elem_of_In, Hd|]. apply bool_decide_eq_true. lia. }
    destruct (ServerProps.last_day (Server.now env) db);
      [apply elem_of_nil in Hin; contradiction | cbn; lia]. }
  cbv zeta. change (Server.find_limit 1000) with (@take Server.BehaviorData 1000).
  set (window := ServerProps.last_day (Server.now env) db).
  assert (Hperm : merge_sort (Server.scan_order env) window ≡ₚ window)
    by apply merge_sort_Permutation.
  assert (Hall : ∀ f : Server.BehaviorData → list JsObj,
            (ServerProps.total_length f
               (take 1000 (merge_sort (Server.scan_order env) window))
             ≤ ServerProps.total_length f window)%nat
            ∧ ((length window ≤ 1000)%nat →
               ServerProps.total_length f
                 (take 1000 (merge_sort (Server.scan_order env) window))
               = ServerProps.total_length f window)).
  { intros f. split.
    - rewrite <- (total_length_Permutation f _ _ Hperm).
      apply total_length_take.
    - intros Hle. rewrite take_ge
        by (rewrite (Permutation_length Hperm); exact Hle).
      apply total_length_Permutation, Hperm. }
  split; [apply Hall|]. split; [apply Hall|]. split; [apply Hall|].
  split; apply Hall.
Qed.

(** X21 (witness): the six sample documents. *)
Lemma stats_bounds_witness :
  ∃ stats,
    Server.getStats ServerSamples.env0 ServerSamples.six_docs
    = Server.Status200 stats
    ∧ (Server.total_sessions stats ≤ Server.total_records stats)%nat.
Proof.
  destruct (stats_bounds ServerSamples.env0 ServerSamples.six_docs eq_refl)
    as (stats & Heq & _ & Hle & _).
  exists stats. split; [exact Heq | exact Hle].
Defined.

(** ** Error answers *)

Lemma internal_error_shape {A : Type} (env : Server.Env) (msg m : string)
    (e : option string) :
  @Server.internal_error A env msg = Server.Status500 m e →
  m = "Internal server error"
  ∧ (Server.production env = true → e = None)
  ∧ (Server.production env = false → e = Some msg).
Proof.
  unfold Server.internal_error. intros [= <- <-].
  split; [reflexivity|]. destruct (Server.production env);
    split; intros H; (reflexivity || discriminate H).
Qed.

(** X22. Every 500 answer of the five handlers has the message
    Internal server error; in production it carries no error detail,
    outside production it carries one. A failing store makes the four
    reading handlers answer 500, and makes the collect handler answer 500
    when the body has a session id, the collection being left as it was. *)
Theorem error_answers (env : Server.Env) (req : Server.Request)
    (recordId : option nat) (db : Server.Db) (m : string) (e : option string) :
  let generic :=
    m = "Internal server error"
    ∧ (Server.production env = true → e = None)
    ∧ (Server.production env = false → e ≠ None) in
  (fst (Server.collectBehavior env req db) = Server.Status500 m e → generic)
  ∧ (Server.getBehaviorData env req db = Server.Status500 m e → generic)
  ∧ (Server.getBehaviorDataById env recordId db = Server.Record500 m e →
     generic)
  ∧ (Server.getSessions env req db = Server.Status500 m e → generic)
  ∧ (Server.getStats env db = Server.Status500 m e → generic)
  ∧ (Server.fault env ≠ None →
     Server.status (Server.getBehaviorData env req db) = 500
     ∧ Server.status (Server.getSessions env req db) = 500
     ∧ Server.status (Server.getStats env db) = 500
     ∧ (∃ m' e', Server.getBehaviorDataById env recordId db
                 = Server.Record500 m' e')
     ∧ snd (Server.collectBehavior env req db) = db
     ∧ (Server.no_session_id (Server.body req) = false →
        Server.status (fst (Server.collectBehavior env req db)) = 500)).
Proof.
  cbv zeta.
  assert (Hgen : ∀ A msg,
             @Server.internal_error A env msg = Server.Status500 m e →
             m = "Internal server error"
             ∧ (Server.production env = true → e = None)
             ∧ (Server.production env = false → e ≠ None)).
  { intros A msg H. apply internal_error_shape in H as (H1 & H2 & H3).
    split; [exact H1|]. split; [exact H2|]. intros Hp. rewrite (H3 Hp).
    discriminate. }
  split; [|split; [|split; [|split; [|split]]]].
  - unfold Server.collectBehavior.
    destruct (Server.no_session_id (Server.body req)); [discriminate|].
    destruct (Server.create env _ db) as [[msg|saved] db']; cbn [fst];
      [apply Hgen | discriminate].
  - unfold Server.getBehaviorData.
    destruct (Server.fault env); [apply Hgen|].
    destruct (Server.find_page _ _ _ db); [apply Hgen | discriminate].
  - unfold Server.getBehaviorDataById.
    destruct recordId as [id|], (Server.fault env) as [msg|];
      try (destruct (Server.findById id db); discriminate);
      intros [= <- <-]; (split; [reflexivity|]);
      destruct (Server.production env); split; intros H;
        (reflexivity || discriminate).
  - unfold Server.getSessions.
    destruct (Server.fault env); [apply Hgen|].
    destruct (Server.aggregate _ _ db); [apply Hgen | discriminate].
  - unfold Server.getStats.
    destruct (Server.fault env); [apply Hgen | discriminate].
  - intros Hfault.
    destruct (Server.fault env) as [msg|] eqn:Hf; [clear Hfault|congruence].
    unfold Server.getBehaviorData, Server.getSessions, Server.getStats,
      Server.getBehaviorDataById, Server.collectBehavior, Server.create.
    rewrite Hf. repeat (split; [reflexivity|]).
    split; [destruct recordId; eauto|].
    destruct (Server.no_session_id (Server.body req)).
    + split; [reflexivity | discriminate].
    + destruct (Server.validate _); split; reflexivity.
Qed.
